(** * system-inventory-windows: the two JSON checking scripts

    [check_file.py] (the Syntax Checker) and [verify_json_file.py] (the
    Schema Validator) are embedded as programs of a small writer-and-exception
    monad.  A run produces the ordered list of its interactions with the
    outside world (file-system calls, calls to the JSON decoder and to the
    schema library, lines printed, log records) and either a value or a raised
    exception.  The file system is an explicit value; the JSON decoder and the
    schema library are parameters of the development, and a model of the
    standard-library decoder is given to run the scripts on concrete files.
    The statements that [verify_json_file.py] runs at module level, before
    its [__main__] block, are embedded too: the imports from the schema
    library and the set-up of the log file. *)

From Stdlib Require Import List ZArith NArith Lia String Ascii Bool Arith.
From Stdlib Require Import DecimalString.
From Stdlib Require Init.Byte.
From ExtLib Require Import Structures.Monad Structures.MonadExc.
Import ListNotations.

Set Implicit Arguments.

(** ** Python strings and byte strings *)

Module PyStr.

(** A [str] is a sequence of Unicode code points; a [bytes] object is a
    sequence of octets. *)
Definition str := list N.
Definition bytes := list Byte.byte.

Definition lit (s : string) : str :=
  map N_of_ascii (list_ascii_of_string s).

(** [s[lo:hi]] with Python's index adjustment: a negative index counts from
    the end, and both indices are clamped to [0, len]. *)
Definition adjust_index (len i : Z) : Z :=
  if (i <? 0)%Z then Z.max 0 (i + len) else Z.min i len.

Definition slice (A : Type) (l : list A) (lo hi : Z) : list A :=
  let len := Z.of_nat (List.length l) in
  let a := adjust_index len lo in
  let b := adjust_index len hi in
  firstn (Z.to_nat (b - a)) (skipn (Z.to_nat a) l).

(** [str(n)] for a non-negative integer. *)
Definition str_of_nat (n : nat) : str :=
  lit (NilZero.string_of_uint (Nat.to_uint n)).

Definition hexdigit (n : N) : N :=
  nth (N.to_nat n) (lit "0123456789abcdef") 0%N.

(** [b.hex()]: two lowercase hexadecimal digits per octet. *)
Definition hex_byte (b : Byte.byte) : str :=
  let n := Byte.to_N b in [hexdigit (n / 16); hexdigit (n mod 16)].

Definition hex (bs : bytes) : str := flat_map hex_byte bs.

Fixpoint starts_with (p s : str) : bool :=
  match p, s with
  | [], _ => true
  | _ :: _, [] => false
  | a :: p', b :: s' => N.eqb a b && starts_with p' s'
  end.

(** [needle in hay]. *)
Fixpoint contains (needle hay : str) : bool :=
  starts_with needle hay ||
  match hay with
  | [] => false
  | _ :: hay' => contains needle hay'
  end.

(** [s.count(c, 0, stop)] and [s.rfind(c, 0, stop)] for a one-character
    [c] and [0 <= stop]. *)
Definition count_char (c : N) (s : str) (stop : nat) : nat :=
  List.length (filter (N.eqb c) (firstn stop s)).

Fixpoint rfind_from (c : N) (s : str) (i : nat) (last : Z) : Z :=
  match s with
  | [] => last
  | x :: s' => rfind_from c s' (S i) (if N.eqb x c then Z.of_nat i else last)
  end.

Definition rfind_char (c : N) (s : str) (stop : nat) : Z :=
  rfind_from c (firstn stop s) 0 (-1)%Z.

End PyStr.
Import PyStr.

(** ** Exceptions *)

Module PyExc.

(** The exception classes the two scripts can meet, with Python's class
    hierarchy.  [ValidationError] is the schema library's error class. *)
Inductive cls :=
| BaseException | SystemExit | Exception
| OSError | FileNotFoundError | PermissionError | IsADirectoryError
| ValueError | UnicodeError | UnicodeDecodeError | JSONDecodeError
| RuntimeError | RecursionError
| ValidationError
| ImportError | ModuleNotFoundError.

Definition cls_eqb (a b : cls) : bool :=
  match a, b with
  | BaseException, BaseException | SystemExit, SystemExit
  | Exception, Exception | OSError, OSError
  | FileNotFoundError, FileNotFoundError
  | PermissionError, PermissionError
  | IsADirectoryError, IsADirectoryError
  | ValueError, ValueError | UnicodeError, UnicodeError
  | UnicodeDecodeError, UnicodeDecodeError
  | JSONDecodeError, JSONDecodeError
  | RuntimeError, RuntimeError | RecursionError, RecursionError
  | ValidationError, ValidationError
  | ImportError, ImportError
  | ModuleNotFoundError, ModuleNotFoundError => true
  | _, _ => false
  end.

(** The direct base class ([__base__]); [BaseException] is the root. *)
Definition base (c : cls) : option cls :=
  match c with
  | BaseException => None
  | SystemExit | Exception => Some BaseException
  | OSError | ValueError | RuntimeError | ImportError => Some Exception
  | FileNotFoundError | PermissionError | IsADirectoryError => Some OSError
  | UnicodeError | JSONDecodeError | ValidationError => Some ValueError
  | UnicodeDecodeError => Some UnicodeError
  | RecursionError => Some RuntimeError
  | ModuleNotFoundError => Some ImportError
  end.

Fixpoint mro_upto (fuel : nat) (c : cls) : list cls :=
  c :: match fuel with
       | O => []
       | S fuel' =>
           match base c with
           | Some b => mro_upto fuel' b
           | None => []
           end
       end.

(** The hierarchy above is five classes deep. *)
Definition mro (c : cls) : list cls := mro_upto 5 c.

Definition issubclass (c d : cls) : bool := existsb (cls_eqb d) (mro c).

(** Exception instances, with the attributes the scripts and [str(e)] read. *)
Inductive exn :=
| E_SystemExit (code : Z)
| E_OSError (c : cls) (errno : nat) (strerror filename : str)
| E_UnicodeError (msg : str)
| E_UnicodeDecodeError (encoding : str) (object : bytes)
    (start stop : nat) (reason : str)
| E_JSONDecodeError (msg doc : str) (pos : nat)
| E_ValueError (msg : str)
| E_RecursionError (msg : str)
| E_ValidationError (msg : str)
| E_ModuleNotFoundError (name : str).

Definition type_of (e : exn) : cls :=
  match e with
  | E_SystemExit _ => SystemExit
  | E_OSError c _ _ _ => c
  | E_UnicodeError _ => UnicodeError
  | E_UnicodeDecodeError _ _ _ _ _ => UnicodeDecodeError
  | E_JSONDecodeError _ _ _ => JSONDecodeError
  | E_ValueError _ => ValueError
  | E_RecursionError _ => RecursionError
  | E_ValidationError _ => ValidationError
  | E_ModuleNotFoundError _ => ModuleNotFoundError
  end.

Definition isinstance (e : exn) (c : cls) : bool := issubclass (type_of e) c.

(** [e.pos] of a [JSONDecodeError]. *)
Definition exc_pos (e : exn) : Z :=
  match e with
  | E_JSONDecodeError _ _ pos => Z.of_nat pos
  | _ => 0%Z
  end.

(** [JSONDecodeError.__init__] computes the line and the column of [pos]:
    [lineno = doc.count('\n', 0, pos) + 1] and
    [colno = pos - doc.rfind('\n', 0, pos)]. *)
Definition lineno (doc : str) (pos : nat) : nat :=
  count_char 10%N doc pos + 1.

Definition colno (doc : str) (pos : nat) : nat :=
  Z.to_nat (Z.of_nat pos - rfind_char 10%N doc pos).

Section Str.

(** [repr] of a string, which quotes the file name in an [OSError]. *)
Variable repr : str -> str.

(** [str(e)]. *)
Definition str_of (e : exn) : str :=
  match e with
  | E_SystemExit code =>
      match code with
      | Z0 => lit "0"
      | Zpos p => str_of_nat (Pos.to_nat p)
      | Zneg p => lit "-" ++ str_of_nat (Pos.to_nat p)
      end
  | E_OSError _ errno strerror filename =>
      lit "[Errno " ++ str_of_nat errno ++ lit "] " ++ strerror ++ lit ": "
        ++ repr filename
  | E_UnicodeError msg => msg
  | E_UnicodeDecodeError encoding object start stop reason =>
      if Nat.eqb stop (start + 1) then
        lit "'" ++ encoding ++ lit "' codec can't decode byte 0x"
          ++ hex_byte (nth start object Byte.x00)
          ++ lit " in position " ++ str_of_nat start ++ lit ": " ++ reason
      else
        lit "'" ++ encoding ++ lit "' codec can't decode bytes in position "
          ++ str_of_nat start ++ lit "-" ++ str_of_nat (stop - 1)
          ++ lit ": " ++ reason
  | E_JSONDecodeError msg doc pos =>
      msg ++ lit ": line " ++ str_of_nat (lineno doc pos)
        ++ lit " column " ++ str_of_nat (colno doc pos)
        ++ lit " (char " ++ str_of_nat pos ++ lit ")"
  | E_ValueError msg => msg
  | E_RecursionError msg => msg
  | E_ValidationError msg => msg
  | E_ModuleNotFoundError name => lit "No module named " ++ repr name
  end.

End Str.

End PyExc.
Import PyExc.

(** ** Text decoding, as [open(path, 'r', encoding='utf-16')] does it *)

Module Codec.

Local Open Scope N_scope.

Inductive byteorder := LittleEndian | BigEndian.

(** One 16-bit code unit: [(q[ihi] << 8) | q[ilo]]. *)
Definition code_unit (bo : byteorder) (b0 b1 : Byte.byte) : N :=
  match bo with
  | LittleEndian => N.lor (N.shiftl (Byte.to_N b1) 8) (Byte.to_N b0)
  | BigEndian => N.lor (N.shiftl (Byte.to_N b0) 8) (Byte.to_N b1)
  end.

Definition is_surrogate (ch : N) : bool := (0xD800 <=? ch) && (ch <=? 0xDFFF).
Definition is_high_surrogate (ch : N) : bool := (0xD800 <=? ch) && (ch <=? 0xDBFF).
Definition is_low_surrogate (ch : N) : bool := (0xDC00 <=? ch) && (ch <=? 0xDFFF).

Definition join_surrogates (hi lo : N) : N :=
  0x10000 + N.lor (N.shiftl (N.land hi 0x03FF) 10) (N.land lo 0x03FF).

Definition encoding_name (bo : byteorder) : str :=
  match bo with
  | LittleEndian => lit "utf-16-le"
  | BigEndian => lit "utf-16-be"
  end.

(** The decoding loop of the UTF-16 codec in strict mode on the bytes [q]
    that start at offset [pos] of [object]: the first malformed place raises
    a [UnicodeDecodeError] with the offsets and the reason the codec gives. *)
Fixpoint utf_16_units (bo : byteorder) (object : bytes) (q : bytes) (pos : nat)
  : exn + str :=
  let error start stop reason :=
    inl (E_UnicodeDecodeError (encoding_name bo) object start stop (lit reason)) in
  match q with
  | [] => inr []
  | [_] => error pos (pos + 1)%nat "truncated data"%string
  | b0 :: b1 :: q' =>
      let ch := code_unit bo b0 b1 in
      if negb (is_surrogate ch) then
        match utf_16_units bo object q' (pos + 2) with
        | inl e => inl e
        | inr s => inr (ch :: s)
        end
      else if negb (is_high_surrogate ch) then
        error pos (pos + 2)%nat "illegal encoding"%string
      else
        match q' with
        | b2 :: b3 :: q'' =>
            let ch2 := code_unit bo b2 b3 in
            if negb (is_low_surrogate ch2) then
              error pos (pos + 2)%nat "illegal UTF-16 surrogate"%string
            else
              match utf_16_units bo object q'' (pos + 4) with
              | inl e => inl e
              | inr s => inr (join_surrogates ch ch2 :: s)
              end
        | _ => error pos (pos + 2 + List.length q')%nat
                 "unexpected end of data"%string
        end
  end.

(** [codecs.utf_16_ex_decode(input, 'strict', 0, True)] on a little-endian
    machine: a leading byte-order mark selects the byte order and is skipped;
    without one the bytes are read in native order.  The result carries the
    number of bytes consumed and the byte order found ([-1] little-endian,
    [1] big-endian, [0] none). *)
Definition utf_16_ex_decode (input : bytes) : exn + (str * nat * Z) :=
  let '(byteorder, q, skipped) :=
    match input with
    | b0 :: b1 :: rest =>
        let bom := N.lor (N.shiftl (Byte.to_N b1) 8) (Byte.to_N b0) in
        if bom =? 0xFEFF then ((-1)%Z, rest, 2%nat)
        else if bom =? 0xFFFE then (1%Z, rest, 2%nat)
        else (0%Z, input, 0%nat)
    | _ => (0%Z, input, 0%nat)
    end in
  let bo := if (byteorder <=? 0)%Z then LittleEndian else BigEndian in
  match utf_16_units bo input q skipped with
  | inl e => inl e
  | inr output => inr (output, List.length input, byteorder)
  end.

(** [encodings.utf_16.IncrementalDecoder._buffer_decode] on the first and
    only chunk of a stream: an input of two bytes or more without a
    byte-order mark is refused. *)
Definition utf_16_buffer_decode (input : bytes) : exn + str :=
  match utf_16_ex_decode input with
  | inl e => inl e
  | inr (output, consumed, byteorder) =>
      if (byteorder =? -1)%Z then inr output
      else if (byteorder =? 1)%Z then inr output
      else if (2 <=? consumed)%nat then
        inl (E_UnicodeError (lit "UTF-16 stream does not start with BOM"))
      else inr output
  end.

(** Universal newlines: ["\r\n"] and a lone ["\r"] are read as ["\n"]. *)
Fixpoint translate_newlines (s : str) : str :=
  match s with
  | [] => []
  | 13 :: s' =>
      10 :: match s' with
            | 10 :: s'' => translate_newlines s''
            | _ => translate_newlines s'
            end
  | c :: s' => c :: translate_newlines s'
  end.

(** [f.read()] on a file opened in text mode with [encoding='utf-16']. *)
Definition decode_utf_16_text (data : bytes) : exn + str :=
  match utf_16_buffer_decode data with
  | inl e => inl e
  | inr s => inr (translate_newlines s)
  end.

End Codec.
Import Codec.

(** A byte string given by its octets, and the ASCII bytes of a literal. *)
Definition octets (l : list N) : bytes :=
  map (fun n => match Byte.of_N n with Some b => b | None => Byte.x00 end) l.

Definition ascii_bytes (s : string) : bytes := list_byte_of_string s.

(** Literals for JSON text: an apostrophe in the literal stands for the
    double quote of the text. *)
Definition jlit (s : string) : str :=
  map (fun c => if N.eqb c 39 then 34%N else c) (lit s).

Definition jbytes (s : string) : bytes := octets (jlit s).

(** [s.encode('utf-16-le')] for text of the Basic Multilingual Plane. *)
Definition utf_16_le_bmp (s : str) : bytes :=
  octets (flat_map (fun c => [c mod 256; c / 256]%N) s).

(** [s.encode('utf-16-be')] for text of the Basic Multilingual Plane. *)
Definition utf_16_be_bmp (s : str) : bytes :=
  octets (flat_map (fun c => [c / 256; c mod 256]%N) s).

(** A character of the Basic Multilingual Plane that is not a surrogate:
    one that UTF-16 writes as a single code unit. *)
Definition is_bmp_scalar (c : N) : bool :=
  (c <? 0x10000)%N && negb (is_surrogate c).

Definition BOM_LE : bytes := [Byte.xff; Byte.xfe].
Definition BOM_BE : bytes := [Byte.xfe; Byte.xff].

Definition byte_order_mark (bo : byteorder) : bytes :=
  match bo with
  | LittleEndian => BOM_LE
  | BigEndian => BOM_BE
  end.

(** Following the specification's words, not the scripts: [data] is valid
    UTF-16-encoded text, the text being [text], when it is the code units
    of [text] in one of the two byte orders, with or without the byte-order
    mark of that order in front. *)
Definition utf_16_encodes (data : bytes) (text : str) : Prop :=
  exists bo body,
    (data = body \/ data = byte_order_mark bo ++ body) /\
    utf_16_units bo body body 0 = inr text.

Definition str_error (r : exn + str) : option (cls * str) :=
  match r with
  | inl e => Some (type_of e, str_of (fun s => s) e)
  | inr _ => None
  end.

(** ** The outside world *)

Module OS.

(** What a path names: a regular file (with its bytes, readable by the
    process or not) or a directory (with the size the platform reports).
    The errors of [open] carry the POSIX error numbers; on Windows a
    directory is refused with a [PermissionError], which the scripts treat
    alike. *)
Inductive node :=
| RegularFile (readable : bool) (data : bytes)
| Directory (st_size : N).

Definition filesystem := str -> option node.

Definition st_size_of (n : node) : Z :=
  match n with
  | RegularFile _ data => Z.of_nat (List.length data)
  | Directory sz => Z.of_N sz
  end.

(** A file object returned by [open]. *)
Record file := { f_binary : bool; f_data : bytes }.

Definition path_eqb (a b : str) : bool :=
  if list_eq_dec N.eq_dec a b then true else false.

(** The file system after an empty file has been created at [path]. *)
Definition create_file (fs : filesystem) (path : str) : filesystem :=
  fun p => if path_eqb p path then Some (RegularFile true []) else fs p.

(** What the process finds around it when it starts: the files, the
    exception that importing a module raises (if it raises one), the paths
    the process may create or append to, and [os.path.abspath].  The
    working directory is taken to exist. *)
Record environment := {
  files : filesystem;
  import_error : str -> option exn;
  appendable : str -> bool;
  abspath : str -> str }.

End OS.
Import OS.

(** What [json.loads] does on a string: it returns the parsed value, or
    raises [JSONDecodeError(msg, doc, pos)] on malformed text, or raises a
    plain [ValueError] or a [RecursionError] on text it cannot convert. *)
Inductive loads_result (value : Type) :=
| Loaded (v : value)
| Malformed (msg : str) (pos : nat)
| Unconvertible (msg : str)
| TooDeep (msg : str).

Arguments Malformed {value} msg pos.
Arguments Unconvertible {value} msg.
Arguments TooDeep {value} msg.

(** What [AddUpdateRequest.model_validate] does on parsed data: it returns
    the validated model or raises a [ValidationError]. *)
Inductive validation_result (model : Type) :=
| Valid (m : model)
| Invalid (msg : str).

Arguments Invalid {model} msg.

Inductive level := INFO | ERROR.

(** The stages of the Schema Validator. *)
Inductive stage :=
| Existence | Emptiness | Preview | Decode | Parse | Schema.

Definition all_stages : list stage :=
  [Existence; Emptiness; Preview; Decode; Parse; Schema].

(** The stage that follows a stage in the specification's order. *)
Definition next_stage (s : stage) : option stage :=
  match s with
  | Existence => Some Emptiness
  | Emptiness => Some Preview
  | Preview => Some Decode
  | Decode => Some Parse
  | Parse => Some Schema
  | Schema => None
  end.

(** The failure taxonomy of the specification for the Syntax Checker: a
    value or parse error, a missing path, any other error; and the words
    each kind is reported with. *)
Inductive failure := ValueOrParseError | MissingPath | OtherError.

Definition diagnostic_prefix (f : failure) : str :=
  match f with
  | ValueOrParseError => lit "Invalid JSON file: "
  | MissingPath => lit "File not found: "
  | OtherError => lit "Error: "
  end.




(** ** Processes and the two scripts *)

Import MonadNotation.
Local Open Scope monad_scope.

Section Scripts.

(** The parsed document, the validated model and the collaborators:
    [loads] is [json.loads], [validate] is [AddUpdateRequest.model_validate],
    [str_model] is [str] on a validated model and [repr] is [repr] on a
    string.  [fs] is the file system the process runs in. *)
Variable value : Type.
Variable model : Type.
Variable loads : str -> loads_result value.
Variable validate : value -> validation_result model.
Variable str_model : model -> str.
Variable repr : str -> str.
Variable fs : filesystem.

(** One interaction of the process with the outside world. *)
Inductive event :=
| EvExists (path : str)
| EvGetsize (path : str)
| EvOpen (path : str) (binary : bool)
| EvRead (size : option nat)
| EvJsonLoads (doc : str)
| EvModelValidate (data : value)
| EvPrint (line : str)
| EvLog (lvl : level) (msg : str)
| EvImport (name : str)
| EvBasicConfig (filename : str).

(** A computation emits events in order and then returns or raises. *)
Definition Proc (A : Type) : Type := (list event * (exn + A))%type.

#[local] Instance Monad_Proc : Monad Proc :=
  {| ret := fun A (a : A) => ([], inr a);
     bind := fun A B (m : Proc A) (f : A -> Proc B) =>
       match m with
       | (t, inl e) => (t, inl e)
       | (t, inr a) => let r := f a in (t ++ fst r, snd r)
       end |}.

#[local] Instance Exc_Proc : MonadExc exn Proc :=
  {| raise := fun A (e : exn) => ([], inl e);
     catch := fun A (m : Proc A) (h : exn -> Proc A) =>
       match m with
       | (t, inl e) => let r := h e in (t ++ fst r, snd r)
       | (t, inr a) => (t, inr a)
       end |}.

(** [try: body except C1 as e: h1 except C2 as e: h2 ...]: the first clause
    whose class the exception is an instance of handles it; an exception no
    clause matches, or one raised by a handler, propagates. *)
Definition handler (A : Type) : Type := (cls * (exn -> Proc A))%type.

Fixpoint dispatch (A : Type) (hs : list (handler A)) (e : exn) : Proc A :=
  match hs with
  | [] => raise e
  | (c, h) :: hs' => if isinstance e c then h e else dispatch hs' e
  end.

Definition try_except (A : Type) (body : Proc A) (hs : list (handler A)) : Proc A :=
  catch body (dispatch hs).

Definition emit (e : event) : Proc unit := ([e], inr tt).

(** [str(e)], as an f-string formats an exception. *)
Definition str_exc (e : exn) : str := str_of repr e.

(** *** Primitives *)

(** [print(line)]: the event is the call; standard output is taken to
    accept every line. *)
Definition print (line : str) : Proc unit := emit (EvPrint line).

Definition logging_info (msg : str) : Proc unit := emit (EvLog INFO msg).

Definition logging_error (msg : str) : Proc unit := emit (EvLog ERROR msg).

Definition sys_exit (A : Type) (code : Z) : Proc A := raise (E_SystemExit code).

Definition os_path_exists (path : str) : Proc bool :=
  emit (EvExists path) ;;
  ret (match fs path with Some _ => true | None => false end).

Definition os_path_getsize (path : str) : Proc Z :=
  emit (EvGetsize path) ;;
  match fs path with
  | Some n => ret (st_size_of n)
  | None =>
      raise (E_OSError FileNotFoundError 2 (lit "No such file or directory") path)
  end.

Definition open_file (path : str) (binary : bool) : Proc file :=
  emit (EvOpen path binary) ;;
  match fs path with
  | None =>
      raise (E_OSError FileNotFoundError 2 (lit "No such file or directory") path)
  | Some (Directory _) =>
      raise (E_OSError IsADirectoryError 21 (lit "Is a directory") path)
  | Some (RegularFile false _) =>
      raise (E_OSError PermissionError 13 (lit "Permission denied") path)
  | Some (RegularFile true data) =>
      ret {| f_binary := binary; f_data := data |}
  end.

(** [f.read(size)] on a binary file. *)
Definition read_bytes (f : file) (size : nat) : Proc bytes :=
  emit (EvRead (Some size)) ;;
  ret (firstn size (f_data f)).

(** [f.read()] on a text file. *)
Definition read_text (f : file) : Proc str :=
  emit (EvRead None) ;;
  match decode_utf_16_text (f_data f) with
  | inl e => raise e
  | inr s => ret s
  end.

Definition json_loads (doc : str) : Proc value :=
  emit (EvJsonLoads doc) ;;
  match loads doc with
  | Loaded v => ret v
  | Malformed msg pos => raise (E_JSONDecodeError msg doc pos)
  | Unconvertible msg => raise (E_ValueError msg)
  | TooDeep msg => raise (E_RecursionError msg)
  end.

(** [json.load(fp)] is [json.loads(fp.read())]. *)
Definition json_load (fp : file) : Proc value :=
  doc <- read_text fp ;;
  json_loads doc.

Definition model_validate (data : value) : Proc model :=
  emit (EvModelValidate data) ;;
  match validate data with
  | Valid m => ret m
  | Invalid msg => raise (E_ValidationError msg)
  end.

(** *** [check_file.py] *)

Definition check_json_file (file_path : str) : Proc unit :=
  try_except
    (f <- open_file file_path false ;;
     _ <- json_load f ;;
     ret tt)
    [ (ValueError, fun e =>
         print (lit "Invalid JSON file: " ++ str_exc e) ;;
         sys_exit unit 1);
      (FileNotFoundError, fun e =>
         print (lit "File not found: " ++ str_exc e) ;;
         sys_exit unit 1);
      (Exception, fun e =>
         print (lit "Error: " ++ str_exc e) ;;
         sys_exit unit 1) ] ;;
  print (lit "Valid JSON file").

(** The [__main__] block; [argv0] is [sys.argv[0]] and [args] the rest of
    [sys.argv].  The module level of [check_file.py] only imports [json]
    and [sys], so [check_file_script] is the whole run of the file. *)
Definition usage (argv0 : str) : str :=
  lit "Usage: python " ++ argv0 ++ lit " <json_file>".

Definition check_file_script (argv0 : str) (args : list str) : Proc unit :=
  if negb (Nat.eqb (1 + List.length args) 2) then
    print (usage argv0) ;;
    sys_exit unit 1
  else
    check_json_file (nth 0 args []).

(** *** [verify_json_file.py] *)

Definition validate_and_load_json (source_file : str) : Proc value :=
  found <- os_path_exists source_file ;;
  (if negb found then
     print (lit "Error: File '" ++ source_file ++ lit "' does not exist") ;;
     sys_exit unit 1
   else ret tt) ;;
  size <- os_path_getsize source_file ;;
  (if (size =? 0)%Z then
     print (lit "Error: File '" ++ source_file ++ lit "' is empty") ;;
     sys_exit unit 1
   else ret tt) ;;
  (file <- open_file source_file true ;;
   first_bytes <- read_bytes file 10 ;;
   print (lit "First bytes (hex): " ++ hex first_bytes)) ;;
  try_except
    (file <- open_file source_file false ;;
     content <- read_text file ;;
     print (lit "File content starts with: " ++ slice content 0 50 ++ lit "...") ;;
     try_except
       (data <- json_loads content ;;
        print (lit "JSON parsed successfully!") ;;
        ret data)
       [ (JSONDecodeError, fun e =>
            print (lit "JSON parsing error: " ++ str_exc e) ;;
            print (lit "Error at position " ++ str_of_nat (Z.to_nat (exc_pos e))
                     ++ lit ", near: '"
                     ++ slice content (Z.max 0 (exc_pos e - 20)) (exc_pos e + 20)
                     ++ lit "'") ;;
            sys_exit value 1) ])
    [ (Exception, fun e =>
         print (lit "File reading error: " ++ str_exc e) ;;
         sys_exit value 1) ].

Definition main (source_file : str) : Proc unit :=
  data <- validate_and_load_json source_file ;;
  try_except
    (response <- model_validate data ;;
     logging_info (lit "Data loaded successfully") ;;
     print (lit "Data loaded into AddUpdateRequest model successfully!") ;;
     print (str_model response))
    [ (Exception, fun e =>
         logging_error
           (lit "Error validating data against AddUpdateRequest model: "
              ++ str_exc e) ;;
         print (lit "Error validating data against AddUpdateRequest model: "
                  ++ str_exc e) ;;
         sys_exit unit 1) ].

(** The [__main__] block of [verify_json_file.py] (lines 59 to 66), as it
    runs once the module-level statements of lines 1 to 9 have succeeded,
    on the file system [fs] they leave.  The whole run of the file, with
    the imports and [logging.basicConfig] in front, is
    [verify_json_file_py] below. *)
Definition verify_json_file_script (argv0 : str) (args : list str) : Proc unit :=
  if negb (Nat.eqb (1 + List.length args) 2) then
    print (usage argv0) ;;
    sys_exit unit 1
  else
    main (nth 0 args []).

(** *** Running a script as a process *)

(** The process ends with status 0 when the script falls off its end, with
    the code of [sys.exit], and with status 1 and a traceback when an
    exception is not handled. *)
Record outcome := { trace : list event; exit_status : Z; traceback : option exn }.

Definition run (p : Proc unit) : outcome :=
  match p with
  | (t, inr _) => {| trace := t; exit_status := 0; traceback := None |}
  | (t, inl (E_SystemExit code)) =>
      {| trace := t; exit_status := code; traceback := None |}
  | (t, inl e) => {| trace := t; exit_status := 1; traceback := Some e |}
  end.

Definition printed (t : list event) : list str :=
  flat_map (fun e => match e with EvPrint line => [line] | _ => [] end) t.

Definition logged (t : list event) : list (level * str) :=
  flat_map (fun e => match e with EvLog lvl msg => [(lvl, msg)] | _ => [] end) t.

(** The texts handed to [json.loads]. *)
Definition parsed (t : list event) : list str :=
  flat_map (fun e => match e with EvJsonLoads doc => [doc] | _ => [] end) t.

(** The files opened, each with its mode ([true] for binary). *)
Definition opened (t : list event) : list (str * bool) :=
  flat_map (fun e => match e with EvOpen path binary => [(path, binary)] | _ => [] end) t.

(** The paths handed to the file system: to [os.path], to [open], and to
    the file handler of [logging]. *)
Definition paths (t : list event) : list str :=
  flat_map (fun e => match e with
                     | EvExists p | EvGetsize p | EvOpen p _ | EvBasicConfig p => [p]
                     | _ => []
                     end) t.

Definition stage_of (e : event) : list stage :=
  match e with
  | EvExists _ => [Existence]
  | EvGetsize _ => [Emptiness]
  | EvOpen _ true => [Preview]
  | EvOpen _ false => [Decode]
  | EvJsonLoads _ => [Parse]
  | EvModelValidate _ => [Schema]
  | _ => []
  end.

Definition stages (t : list event) : list stage := flat_map stage_of t.

(** The part of a trace that comes before the schema library is called. *)
Fixpoint before_schema (t : list event) : list event :=
  match t with
  | [] => []
  | EvModelValidate _ :: _ => []
  | e :: t' => e :: before_schema t'
  end.

Definition stdout (o : outcome) : list str := printed (trace o).

Definition log_file (o : outcome) : list (level * str) := logged (trace o).

(** *** What the specification makes of a path

    These two definitions follow the specification, not the scripts; the
    runs of [check_json_file] are compared with them below. *)

(** What is wrong with a path, told from the file system and the
    collaborators alone: the path is missing; the bytes do not decode, or
    the text is malformed or holds a number that cannot be converted; or
    anything else (the file cannot be opened, the document nests too
    deep). *)
Definition failure_of (path : str) : option (failure * exn) :=
  match fs path with
  | None =>
      Some (MissingPath,
            E_OSError FileNotFoundError 2 (lit "No such file or directory") path)
  | Some (Directory _) =>
      Some (OtherError, E_OSError IsADirectoryError 21 (lit "Is a directory") path)
  | Some (RegularFile false _) =>
      Some (OtherError, E_OSError PermissionError 13 (lit "Permission denied") path)
  | Some (RegularFile true data) =>
      match decode_utf_16_text data with
      | inl e => Some (ValueOrParseError, e)
      | inr text =>
          match loads text with
          | Loaded _ => None
          | Malformed msg pos => Some (ValueOrParseError, E_JSONDecodeError msg text pos)
          | Unconvertible msg => Some (ValueOrParseError, E_ValueError msg)
          | TooDeep msg => Some (OtherError, E_RecursionError msg)
          end
      end
  end.

(** The text the parser is to be given: the decoded text of the file,
    when there is one. *)
Definition decoded_text (path : str) : list str :=
  match fs path with
  | Some (RegularFile true data) =>
      match decode_utf_16_text data with
      | inr text => [text]
      | inl _ => []
      end
  | _ => []
  end.

(** A stage of the Schema Validator passes, in the specification's words:
    the path resolves; the size is not zero; the first bytes can be read;
    the bytes decode; the text parses; the value conforms to the schema. *)
Definition stage_passes (path : str) (s : stage) : bool :=
  match s, fs path with
  | Existence, Some _ => true
  | Emptiness, Some n => negb (st_size_of n =? 0)%Z
  | Preview, Some (RegularFile true _) => true
  | Decode, Some (RegularFile true data) =>
      match decode_utf_16_text data with
      | inr _ => true
      | inl _ => false
      end
  | Parse, Some (RegularFile true data) =>
      match decode_utf_16_text data with
      | inr text =>
          match loads text with
          | Loaded _ => true
          | _ => false
          end
      | inl _ => false
      end
  | Schema, Some (RegularFile true data) =>
      match decode_utf_16_text data with
      | inr text =>
          match loads text with
          | Loaded v =>
              match validate v with
              | Valid _ => true
              | Invalid _ => false
              end
          | _ => false
          end
      | inl _ => false
      end
  | _, _ => false
  end.

(** The stages of a strictly linear run over the stages [l]: the first is
    entered, and each later one is entered when the one before it has
    passed, and not otherwise. *)
Fixpoint entered (path : str) (l : list stage) : list stage :=
  match l with
  | [] => []
  | s :: l' => s :: (if stage_passes path s then entered path l' else [])
  end.

(** The log files set up by [logging.basicConfig]. *)
Definition configured (t : list event) : list str :=
  flat_map (fun e => match e with EvBasicConfig filename => [filename] | _ => [] end) t.

(** Both scripts turn the file at [path], whose bytes are [data], down in
    the decoding: each reports the decoding error in its own words and ends
    with status 1, and neither calls the parser. *)
Definition rejected_in_decoding (argv0 path : str) (data : bytes) : Prop :=
  exists e,
    decode_utf_16_text data = inl e /\
    let checker := run (check_file_script argv0 [path]) in
    let validator := run (verify_json_file_script argv0 [path]) in
    stdout checker = [lit "Invalid JSON file: " ++ str_of repr e] /\
    exit_status checker = 1%Z /\ parsed (trace checker) = [] /\
    stdout validator = [ lit "First bytes (hex): " ++ hex (firstn 10 data);
                         lit "File reading error: " ++ str_of repr e ] /\
    exit_status validator = 1%Z /\ parsed (trace validator) = [].

End Scripts.

(** ** The module level of [verify_json_file.py]

    Lines 1 to 9 run before the [__main__] block on every run, outside any
    [try]: the imports of the standard library (taken to succeed), the two
    imports from the schema library, and [logging.basicConfig], which opens
    the log file for appending and creates it when it is not there. *)

Section WholeModule.

Variable value : Type.
Variable model : Type.
Variable loads : str -> loads_result value.
Variable validate : value -> validation_result model.
Variable str_model : model -> str.
Variable repr : str -> str.

#[local] Existing Instance Monad_Proc.
#[local] Existing Instance Exc_Proc.

(** [from <name> import ...]. *)
Definition import_from (env : environment) (name : str) : Proc value unit :=
  emit (EvImport value name) ;;
  match import_error env name with
  | None => ret tt
  | Some e => raise e
  end.

(** [logging.basicConfig(filename=..., level=logging.INFO, format=...)]: the
    file handler opens the file in mode ['a'] at once; the result is the
    file system with the file in place. *)
Definition logging_basicConfig (env : environment) (filename : str)
  : Proc value filesystem :=
  emit (EvBasicConfig value filename) ;;
  match files env filename with
  | Some (Directory _) =>
      raise (E_OSError IsADirectoryError 21 (lit "Is a directory")
               (abspath env filename))
  | Some (RegularFile _ _) =>
      if appendable env filename then ret (files env)
      else raise (E_OSError PermissionError 13 (lit "Permission denied")
                    (abspath env filename))
  | None =>
      if appendable env filename then ret (create_file (files env) filename)
      else raise (E_OSError PermissionError 13 (lit "Permission denied")
                    (abspath env filename))
  end.

Definition module_level (env : environment) : Proc value filesystem :=
  import_from env (lit "maestro_api_models.models.data.system.model") ;;
  import_from env (lit "maestro_api_models.models.request_response.add_update.model") ;;
  logging_basicConfig env (lit "data_restore.log").

(** The whole run of [verify_json_file.py]. *)
Definition verify_json_file_py (env : environment) (argv0 : str) (args : list str)
  : Proc value unit :=
  fs <- module_level env ;;
  verify_json_file_script loads validate str_model repr fs argv0 args.

(** The start-up succeeds: both modules are imported and the log file can
    be opened for appending. *)
Definition starts (env : environment) : bool :=
  match import_error env (lit "maestro_api_models.models.data.system.model"),
        import_error env
          (lit "maestro_api_models.models.request_response.add_update.model"),
        files env (lit "data_restore.log") with
  | None, None, Some (Directory _) => false
  | None, None, _ => appendable env (lit "data_restore.log")
  | _, _, _ => false
  end.

(** The file system the [__main__] block runs on. *)
Definition files_after_start (env : environment) : filesystem :=
  match files env (lit "data_restore.log") with
  | None => create_file (files env) (lit "data_restore.log")
  | Some _ => files env
  end.

End WholeModule.

(** ** A model of the standard library's JSON decoder

    [json.loads] is a parameter of the scripts above.  To run them on
    concrete files, this module models the decoder of [json.decoder] and
    [json.scanner]: the same grammar, the same error messages and error
    positions.  Floating-point numbers are kept as their text. *)

Module Json.

Local Open Scope N_scope.

#[warnings="-register-all"]
Inductive json :=
| JNull
| JBool (b : bool)
| JInt (n : Z)
| JFloat (text : str)
| JString (s : str)
| JList (items : list json)
| JDict (pairs : list (str * json)).

(** The result of scanning at a position: a value with the text that
    remains and its position, [StopIteration(idx)], a [JSONDecodeError], a
    [ValueError] of a conversion, or a [RecursionError]. *)
Inductive scan (A : Type) :=
| Ok (a : A) (rest : str) (pos : nat)
| Stop (idx : nat)
| Error (msg : str) (pos : nat)
| Conversion (msg : str)
| Recursion (msg : str).

Arguments Stop {A} idx.
Arguments Error {A} msg pos.
Arguments Conversion {A} msg.
Arguments Recursion {A} msg.

Definition scan_map (A B : Type) (f : A -> B) (r : scan A) : scan B :=
  match r with
  | Ok a rest pos => Ok (f a) rest pos
  | Stop idx => Stop idx
  | Error msg pos => Error msg pos
  | Conversion msg => Conversion msg
  | Recursion msg => Recursion msg
  end.

(** [WHITESPACE_STR = ' \t\n\r'] and [_w(s, end).end()]. *)
Definition is_ws (c : N) : bool :=
  (c =? 32) || (c =? 9) || (c =? 10) || (c =? 13).

Fixpoint skip_ws (rest : str) (pos : nat) : str * nat :=
  match rest with
  | c :: rest' => if is_ws c then skip_ws rest' (S pos) else (rest, pos)
  | [] => (rest, pos)
  end.

Definition is_digit (c : N) : bool := (48 <=? c) && (c <=? 57).

Definition hex_value (c : N) : option N :=
  if is_digit c then Some (c - 48)
  else if (97 <=? c) && (c <=? 102) then Some (c - 87)
  else if (65 <=? c) && (c <=? 70) then Some (c - 55)
  else None.

Definition hex4 (a b c d : N) : option N :=
  match hex_value a, hex_value b, hex_value c, hex_value d with
  | Some x, Some y, Some z, Some w => Some (((x * 16 + y) * 16 + z) * 16 + w)
  | _, _, _, _ => None
  end.

(** [BACKSLASH]: the one-character escapes. *)
Definition backslash (c : N) : option N :=
  if c =? 34 then Some 34
  else if c =? 92 then Some 92
  else if c =? 47 then Some 47
  else if c =? 98 then Some 8
  else if c =? 102 then Some 12
  else if c =? 110 then Some 10
  else if c =? 114 then Some 13
  else if c =? 116 then Some 9
  else None.

Definition unterminated (A : Type) (begin : nat) : scan A :=
  Error (lit "Unterminated string starting at") begin.

Definition invalid_uXXXX (A : Type) (pos : nat) : scan A :=
  Error (lit "Invalid \uXXXX escape") pos.

(** [scanstring(s, end, strict=True)]: [rest] is the text after the opening
    quote, which is at index [begin]; [pos] is the index of [rest].  A
    [\uXXXX] escape must be followed by one more character at least. *)
Fixpoint scanstring (begin : nat) (rest : str) (pos : nat) : scan str :=
  match rest with
  | [] => unterminated str begin
  | c :: rest1 =>
      if c =? 34 then Ok [] rest1 (pos + 1)%nat
      else if c =? 92 then
        match rest1 with
        | [] => unterminated str begin
        | esc :: rest2 =>
            if negb (esc =? 117) then
              match backslash esc with
              | None => Error (lit "Invalid \escape") pos
              | Some char =>
                  scan_map (cons char) (scanstring begin rest2 (pos + 2)%nat)
              end
            else
              match rest2 with
              | a :: b :: c4 :: d :: ((_ :: _) as rest6) =>
                  match hex4 a b c4 d with
                  | None => invalid_uXXXX str (pos + 1)%nat
                  | Some uni =>
                      let single :=
                        scan_map (cons uni) (scanstring begin rest6 (pos + 6)%nat) in
                      if is_high_surrogate uni then
                        match rest6 with
                        | 92 :: 117 :: a2 :: b2 :: c2 :: d2 :: ((_ :: _) as rest12) =>
                            match hex4 a2 b2 c2 d2 with
                            | None => invalid_uXXXX str (pos + 7)%nat
                            | Some uni2 =>
                                if is_low_surrogate uni2 then
                                  scan_map (cons (join_surrogates uni uni2))
                                    (scanstring begin rest12 (pos + 12)%nat)
                                else single
                            end
                        | _ => single
                        end
                      else single
                  end
              | _ => invalid_uXXXX str (pos + 1)%nat
              end
        end
      else if c <=? 31 then Error (lit "Invalid control character at") pos
      else scan_map (cons c) (scanstring begin rest1 (pos + 1)%nat)
  end.

(** *** Numbers: an optional minus sign, an integer part, an optional
    fraction and an optional exponent, as [NUMBER_RE] has them *)

Fixpoint span_digits (rest : str) : str * str :=
  match rest with
  | c :: rest' =>
      if is_digit c then let (ds, r) := span_digits rest' in (c :: ds, r)
      else ([], rest)
  | [] => ([], [])
  end.

Definition Z_of_digits (ds : str) : Z :=
  fold_left (fun acc c => (acc * 10 + Z.of_N (c - 48))%Z) ds 0%Z.

(** [int(text)] refuses more than 4300 digits. *)
Definition int_max_str_digits : nat := 4300.

Definition int_of_digits (negative : bool) (ds rest : str) (pos : nat) : scan json :=
  if (int_max_str_digits <? List.length ds)%nat then
    Conversion
      (lit "Exceeds the limit (4300 digits) for integer string conversion: value has "
         ++ str_of_nat (List.length ds)
         ++ lit " digits; use sys.set_int_max_str_digits() to increase the limit")
  else
    Ok (JInt (if negative then - Z_of_digits ds else Z_of_digits ds)%Z) rest pos.

(** The integer part: a single [0], or a non-zero digit and more digits. *)
Definition integer_part (rest : str) : option (str * str) :=
  match rest with
  | c :: rest' =>
      if c =? 48 then Some ([c], rest')
      else if is_digit c then
        let (ds, r) := span_digits rest' in Some (c :: ds, r)
      else None
  | [] => None
  end.

Definition fraction_part (rest : str) : str * str :=
  match rest with
  | 46 :: rest' =>
      match span_digits rest' with
      | ([], _) => ([], rest)
      | (ds, r) => (46 :: ds, r)
      end
  | _ => ([], rest)
  end.

Definition exponent_part (rest : str) : str * str :=
  match rest with
  | e :: rest' =>
      if (e =? 101) || (e =? 69) then
        let '(sign, rest'') :=
          match rest' with
          | sg :: r => if (sg =? 45) || (sg =? 43) then ([sg], r) else ([], rest')
          | [] => ([], rest')
          end in
        match span_digits rest'' with
        | ([], _) => ([], rest)
        | (ds, r) => (e :: sign ++ ds, r)
        end
      else ([], rest)
  | [] => ([], rest)
  end.

Definition match_number (rest : str) (pos : nat) : scan json :=
  let '(negative, body) :=
    match rest with
    | 45 :: r => (true, r)
    | _ => (false, rest)
    end in
  match integer_part body with
  | None => Stop pos
  | Some (integer, r1) =>
      let (frac, r2) := fraction_part r1 in
      let (exp, r3) := exponent_part r2 in
      let sign := if negative then [45] else [] in
      let text := sign ++ integer ++ frac ++ exp in
      match frac, exp with
      | [], [] => int_of_digits negative integer r3 (pos + List.length text)%nat
      | _, _ => Ok (JFloat text) r3 (pos + List.length text)%nat
      end
  end.

(** *** Containers *)

(** [dict(pairs)]: a later pair with the same key replaces the value and
    keeps the place of the first. *)
Fixpoint dict_set (d : list (str * json)) (k : str) (v : json) : list (str * json) :=
  match d with
  | [] => [(k, v)]
  | (k', v') :: d' =>
      if list_eq_dec N.eq_dec k k' then (k, v) :: d'
      else (k', v') :: dict_set d' k v
  end.

Definition dict_of (pairs : list (str * json)) : list (str * json) :=
  fold_left (fun d kv => dict_set d (fst kv) (snd kv)) pairs [].

Section Containers.

(** [scan_once], as [JSONArray] and [JSONObject] receive it. *)
Variable scan_once : str -> nat -> scan json.

(** The loop of [JSONArray]; each round reads a value and a delimiter, so
    the length of the text bounds the number of rounds. *)
Fixpoint array_items (rounds : nat) (rest : str) (pos : nat) (values : list json)
  : scan json :=
  match rounds with
  | O => Stop pos
  | S rounds' =>
      match scan_once rest pos with
      | Ok value rest1 pos1 =>
          let (rest2, pos2) := skip_ws rest1 pos1 in
          match rest2 with
          | c :: rest3 =>
              if c =? 93 then Ok (JList (rev (value :: values))) rest3 (pos2 + 1)%nat
              else if c =? 44 then
                let (rest4, pos4) := skip_ws rest3 (pos2 + 1)%nat in
                array_items rounds' rest4 pos4 (value :: values)
              else Error (lit "Expecting ',' delimiter") pos2
          | [] => Error (lit "Expecting ',' delimiter") pos2
          end
      | Stop idx => Stop idx
      | Error msg p => Error msg p
      | Conversion msg => Conversion msg
      | Recursion msg => Recursion msg
      end
  end.

(** [JSONArray]: [rest] is the text after the bracket. *)
Definition JSONArray (rest : str) (pos : nat) : scan json :=
  let (rest1, pos1) := skip_ws rest pos in
  match rest1 with
  | 93 :: rest2 => Ok (JList []) rest2 (pos1 + 1)%nat
  | _ => array_items (S (List.length rest1)) rest1 pos1 []
  end.

Definition expecting_name (pos : nat) : scan json :=
  Error (lit "Expecting property name enclosed in double quotes") pos.

(** The loop of [JSONObject]: a key, a colon, a value and a delimiter. *)
Fixpoint object_pairs (rounds : nat) (rest : str) (pos : nat)
  (pairs : list (str * json)) : scan json :=
  match rounds with
  | O => Stop pos
  | S rounds' =>
      match rest with
      | 34 :: rest1 =>
          match scanstring pos rest1 (pos + 1)%nat with
          | Ok key rest2 pos2 =>
              let (rest3, pos3) := skip_ws rest2 pos2 in
              match rest3 with
              | 58 :: rest4 =>
                  let (rest5, pos5) := skip_ws rest4 (pos3 + 1)%nat in
                  match scan_once rest5 pos5 with
                  | Ok value rest6 pos6 =>
                      let (rest7, pos7) := skip_ws rest6 pos6 in
                      match rest7 with
                      | c :: rest8 =>
                          if c =? 125 then
                            Ok (JDict (dict_of (rev ((key, value) :: pairs))))
                              rest8 (pos7 + 1)%nat
                          else if c =? 44 then
                            let (rest9, pos9) := skip_ws rest8 (pos7 + 1)%nat in
                            object_pairs rounds' rest9 pos9 ((key, value) :: pairs)
                          else Error (lit "Expecting ',' delimiter") pos7
                      | [] => Error (lit "Expecting ',' delimiter") pos7
                      end
                  | Stop idx => Stop idx
                  | Error msg p => Error msg p
                  | Conversion msg => Conversion msg
                  | Recursion msg => Recursion msg
                  end
              | _ => Error (lit "Expecting ':' delimiter") pos3
              end
          | Stop idx => Stop idx
          | Error msg p => Error msg p
          | Conversion msg => Conversion msg
          | Recursion msg => Recursion msg
          end
      | _ => expecting_name pos
      end
  end.

(** [JSONObject]: [rest] is the text after the brace. *)
Definition JSONObject (rest : str) (pos : nat) : scan json :=
  let (rest1, pos1) := skip_ws rest pos in
  match rest1 with
  | 125 :: rest2 => Ok (JDict []) rest2 (pos1 + 1)%nat
  | _ => object_pairs (S (List.length rest1)) rest1 pos1 []
  end.

End Containers.

(** [text] is a prefix of [rest]: the named constants. *)
Definition keyword (text : string) (v : json) (rest : str) (pos : nat)
  : option (scan json) :=
  if starts_with (lit text) rest then
    Some (Ok v (skipn (String.length text) rest) (pos + String.length text)%nat)
  else None.

Definition recursion_error (what : string) : scan json :=
  Recursion (lit "maximum recursion depth exceeded while decoding a JSON "
               ++ lit what ++ lit " from a unicode string").

(** [scan_once(string, idx)]; [depth] is the number of nested calls the
    interpreter still allows, one for each array or object entered. *)
Fixpoint scan_once (depth : nat) (rest : str) (pos : nat) {struct depth} : scan json :=
  match rest with
  | [] => Stop pos
  | nextchar :: rest1 =>
      let number := match_number rest pos in
      let or_number (k : option (scan json)) :=
        match k with Some r => r | None => number end in
      if nextchar =? 34 then scan_map JString (scanstring pos rest1 (pos + 1)%nat)
      else if nextchar =? 123 then
        match depth with
        | O => recursion_error "object"
        | S depth' => JSONObject (scan_once depth') rest1 (pos + 1)%nat
        end
      else if nextchar =? 91 then
        match depth with
        | O => recursion_error "array"
        | S depth' => JSONArray (scan_once depth') rest1 (pos + 1)%nat
        end
      else if nextchar =? 110 then or_number (keyword "null" JNull rest pos)
      else if nextchar =? 116 then or_number (keyword "true" (JBool true) rest pos)
      else if nextchar =? 102 then or_number (keyword "false" (JBool false) rest pos)
      else if nextchar =? 78 then
        or_number (keyword "NaN" (JFloat (lit "NaN")) rest pos)
      else if nextchar =? 73 then
        or_number (keyword "Infinity" (JFloat (lit "Infinity")) rest pos)
      else if nextchar =? 45 then
        or_number (keyword "-Infinity" (JFloat (lit "-Infinity")) rest pos)
      else number
  end.

(** [json.loads(s)]: a leading U+FEFF is refused, white space around the
    document is skipped, and text after the document is an error. *)
Definition loads (depth : nat) (s : str) : loads_result json :=
  if starts_with [0xFEFF] s then
    Malformed (lit "Unexpected UTF-8 BOM (decode using utf-8-sig)") 0
  else
    let (rest, idx) := skip_ws s 0 in
    match scan_once depth rest idx with
    | Ok obj rest1 pos1 =>
        let (rest2, pos2) := skip_ws rest1 pos1 in
        match rest2 with
        | [] => Loaded obj
        | _ :: _ => Malformed (lit "Extra data") pos2
        end
    | Stop idx' => Malformed (lit "Expecting value") idx'
    | Error msg pos => Malformed msg pos
    | Conversion msg => Unconvertible msg
    | Recursion msg => TooDeep msg
    end.

End Json.

(** ** UTF-8, to say what a UTF-8 encoded document is *)

Module Utf8.

Local Open Scope N_scope.

Definition is_continuation (c : N) : bool := (0x80 <=? c) && (c <=? 0xBF).

Definition between (lo c hi : N) : bool := (lo <=? c) && (c <=? hi).

Definition low6 (c : N) : N := N.land c 0x3F.

(** The strict UTF-8 decoder: shortest form only, no surrogates, nothing
    above U+10FFFF. *)
Fixpoint utf_8_decode (q : bytes) : option str :=
  match q with
  | [] => Some []
  | b0 :: q1 =>
      let c0 := Byte.to_N b0 in
      if c0 <? 0x80 then option_map (cons c0) (utf_8_decode q1)
      else if between 0xC2 c0 0xDF then
        match q1 with
        | b1 :: q2 =>
            let c1 := Byte.to_N b1 in
            if is_continuation c1 then
              option_map (cons (N.lor (N.shiftl (N.land c0 0x1F) 6) (low6 c1)))
                (utf_8_decode q2)
            else None
        | _ => None
        end
      else if between 0xE0 c0 0xEF then
        match q1 with
        | b1 :: b2 :: q3 =>
            let c1 := Byte.to_N b1 in
            let c2 := Byte.to_N b2 in
            let lo := if c0 =? 0xE0 then 0xA0 else 0x80 in
            let hi := if c0 =? 0xED then 0x9F else 0xBF in
            if between lo c1 hi && is_continuation c2 then
              option_map
                (cons (N.lor (N.shiftl (N.land c0 0x0F) 12)
                         (N.lor (N.shiftl (low6 c1) 6) (low6 c2))))
                (utf_8_decode q3)
            else None
        | _ => None
        end
      else if between 0xF0 c0 0xF4 then
        match q1 with
        | b1 :: b2 :: b3 :: q4 =>
            let c1 := Byte.to_N b1 in
            let c2 := Byte.to_N b2 in
            let c3 := Byte.to_N b3 in
            let lo := if c0 =? 0xF0 then 0x90 else 0x80 in
            let hi := if c0 =? 0xF4 then 0x8F else 0xBF in
            if between lo c1 hi && is_continuation c2 && is_continuation c3 then
              option_map
                (cons (N.lor (N.shiftl (N.land c0 0x07) 18)
                         (N.lor (N.shiftl (low6 c1) 12)
                            (N.lor (N.shiftl (low6 c2) 6) (low6 c3)))))
                (utf_8_decode q4)
            else None
        | _ => None
        end
      else None
  end.

End Utf8.
Import Utf8.

(** A file holds a JSON document in an encoding when its bytes decode and
    the text parses. *)
Definition utf8_json (value : Type) (loads : str -> loads_result value)
  (data : bytes) : Prop :=
  exists text v, utf_8_decode data = Some text /\ loads text = Loaded v.

Definition utf16_json (value : Type) (loads : str -> loads_result value)
  (data : bytes) : Prop :=
  exists text v, decode_utf_16_text data = inr text /\ loads text = Loaded v.

(** ** A concrete setting to run the scripts in *)

Module Sample.

Import Json.

(** The decoder with the nesting that the default recursion limit of the
    interpreter leaves to a script. *)
Definition loads : str -> loads_result json := Json.loads 995.

(** A stand-in for the request schema, which belongs to a library outside
    the repository: a request is a JSON object with a member [data]. *)
Definition validate (v : json) : validation_result (list (str * json)) :=
  match v with
  | JDict pairs =>
      if existsb (fun kv => if list_eq_dec N.eq_dec (fst kv) (lit "data")
                            then true else false) pairs
      then Valid pairs
      else Invalid (lit "1 validation error for AddUpdateRequest: data: Field required")
  | _ => Invalid (lit "1 validation error for AddUpdateRequest: Input should be an object")
  end.

Definition str_model (m : list (str * json)) : str :=
  lit "AddUpdateRequest(members=" ++ str_of_nat (List.length m) ++ lit ")".

(** [repr] on file names without quotes, backslashes or unprintable
    characters. *)
Definition repr (s : str) : str := lit "'" ++ s ++ lit "'".

Definition str_eqb (a b : str) : bool :=
  if list_eq_dec N.eq_dec a b then true else false.

Definition fs_of (entries : list (str * node)) : filesystem :=
  fun path =>
    match find (fun kv => str_eqb (fst kv) path) entries with
    | Some kv => Some (snd kv)
    | None => None
    end.

Definition utf16_file (text : str) : node :=
  RegularFile true (BOM_LE ++ utf_16_le_bmp text).

(** A directory with one file of each kind the scripts tell apart. *)
Definition fs : filesystem :=
  fs_of
    [ (lit "ok.json", utf16_file (jlit "{'data': [1, 2]}"));
      (lit "a.json", utf16_file (jlit "{'a': 1}"));
      (lit "truncated.json", utf16_file (jlit "{'a': 1"));
      (lit "long.json",
        utf16_file (jlit "{'name': 'inventory', 'items': [1, 2, 3,, 4], 'owner': 'ops'}"));
      (lit "utf8.json", RegularFile true (jbytes "{'a': 1}"));
      (lit "odd.json", RegularFile true (jbytes "{'a':1}"));
      (lit "short.json", RegularFile true (BOM_LE ++ utf_16_le_bmp (lit "7")));
      (lit "empty.json", RegularFile true []);
      (lit "secret.json", RegularFile false (BOM_LE ++ utf_16_le_bmp (jlit "{'a': 1}")));
      (lit "deep.json", utf16_file (repeat 91%N 996 ++ repeat 93%N 996));
      (lit "inventory", Directory 4096);
      (lit "nobom.json", RegularFile true (utf_16_le_bmp (jlit "{'a': 1}"))) ].

Definition check_file (argv : list str) : outcome json :=
  run (check_file_script loads repr fs (lit "check_file.py") argv).

Definition verify_json_file (argv : list str) : outcome json :=
  run (verify_json_file_script loads validate str_model repr fs
         (lit "verify_json_file.py") argv).

(** Three places to start the Schema Validator in: one where the schema
    library is installed and the working directory can be written to; one
    without the schema library; one where the log file cannot be created. *)
Definition env : environment :=
  {| files := fs;
     import_error := fun _ => None;
     appendable := fun _ => true;
     abspath := fun p => lit "/srv/restore/" ++ p |}.

Definition without_schema_library : environment :=
  {| files := fs;
     import_error := fun _ => Some (E_ModuleNotFoundError (lit "maestro_api_models"));
     appendable := fun _ => true;
     abspath := fun p => lit "/srv/restore/" ++ p |}.

Definition read_only_directory : environment :=
  {| files := fs;
     import_error := fun _ => None;
     appendable := fun _ => false;
     abspath := fun p => lit "/srv/restore/" ++ p |}.

Definition verify_json_file_in (e : environment) (argv : list str) : outcome json :=
  run (verify_json_file_py loads validate str_model repr e
         (lit "verify_json_file.py") argv).

End Sample.


(** * Properties *)

(** ** The models on small inputs *)

Example slice_past_end : slice (lit "abcdef") 2 100 = lit "cdef".
Proof. reflexivity. Qed.

Example slice_negative : slice (lit "abcdef") (-2) 6 = lit "ef".
Proof. reflexivity. Qed.

Example hex_sample :
  hex [Byte.xff; Byte.xfe; Byte.x7b; Byte.x00] = lit "fffe7b00".
Proof. reflexivity. Qed.

Example str_of_nat_sample : str_of_nat 107 = lit "107".
Proof. reflexivity. Qed.

Example mro_UnicodeDecodeError :
  mro UnicodeDecodeError =
  [UnicodeDecodeError; UnicodeError; ValueError; Exception; BaseException].
Proof. reflexivity. Qed.

Example SystemExit_is_not_an_Exception : issubclass SystemExit Exception = false.
Proof. reflexivity. Qed.

Example JSONDecodeError_str :
  str_of (fun s => s) (E_JSONDecodeError (lit "Expecting value")
                         (lit "[1," ++ [10%N] ++ lit "2," ++ [10%N] ++ lit "x]") 7)
  = lit "Expecting value: line 3 column 1 (char 7)".
Proof. reflexivity. Qed.

Example decode_empty : decode_utf_16_text [] = inr [].
Proof. reflexivity. Qed.

Example decode_one_byte :
  str_error (decode_utf_16_text (ascii_bytes "1")) =
  Some (UnicodeDecodeError,
        lit "'utf-16-le' codec can't decode byte 0x31 in position 0: truncated data").
Proof. reflexivity. Qed.

Example decode_utf8_document :
  str_error (decode_utf_16_text (jbytes "{'a': 1}")) =
  Some (UnicodeError, lit "UTF-16 stream does not start with BOM").
Proof. reflexivity. Qed.

Example decode_utf8_document_odd :
  str_error (decode_utf_16_text (jbytes "{'a':1}")) =
  Some (UnicodeDecodeError,
        lit "'utf-16-le' codec can't decode byte 0x7d in position 6: truncated data").
Proof. reflexivity. Qed.

Example decode_with_bom :
  decode_utf_16_text (BOM_LE ++ utf_16_le_bmp (jlit "{'a': 1}")) =
  inr (jlit "{'a': 1}").
Proof. reflexivity. Qed.

Example decode_without_bom :
  str_error (decode_utf_16_text (utf_16_le_bmp (jlit "{'a': 1}"))) =
  Some (UnicodeError, lit "UTF-16 stream does not start with BOM").
Proof. reflexivity. Qed.

Example decode_big_endian :
  decode_utf_16_text (BOM_BE ++ octets [0; 123; 0; 125]%N) = inr (lit "{}").
Proof. reflexivity. Qed.

Example decode_lone_high_surrogate :
  str_error (decode_utf_16_text (BOM_LE ++ octets [0x00; 0xd8]%N)) =
  Some (UnicodeDecodeError,
        lit "'utf-16-le' codec can't decode bytes in position 2-3: unexpected end of data").
Proof. reflexivity. Qed.

Example decode_lone_low_surrogate :
  str_error (decode_utf_16_text (BOM_LE ++ octets [0x00; 0xdc; 0x31; 0x00]%N)) =
  Some (UnicodeDecodeError,
        lit "'utf-16-le' codec can't decode bytes in position 2-3: illegal encoding").
Proof. reflexivity. Qed.

Example decode_bad_pair :
  str_error (decode_utf_16_text (BOM_LE ++ octets [0x00; 0xd8; 0x31; 0x00]%N)) =
  Some (UnicodeDecodeError,
        lit "'utf-16-le' codec can't decode bytes in position 2-3: illegal UTF-16 surrogate").
Proof. reflexivity. Qed.

Example decode_pair :
  decode_utf_16_text (BOM_LE ++ octets [0x00; 0xd8; 0x00; 0xdc]%N) = inr [0x10000%N].
Proof. reflexivity. Qed.

Example decode_newlines :
  decode_utf_16_text
    (BOM_LE ++ utf_16_le_bmp [49; 13; 10; 50; 13; 51]%N) = inr [49; 10; 50; 10; 51]%N.
Proof. reflexivity. Qed.


(** ** Strings and slices *)

Lemma starts_with_app (p rest : str) : starts_with p (p ++ rest) = true.
Proof.
  induction p as [|c p IH]; simpl; [reflexivity|].
  rewrite N.eqb_refl. exact IH.
Qed.

Lemma contains_starts_with (needle hay : str) :
  starts_with needle hay = true -> contains needle hay = true.
Proof.
  intros H. destruct hay; simpl; rewrite H; reflexivity.
Qed.

Lemma contains_prefix (needle rest : str) : contains needle (needle ++ rest) = true.
Proof. apply contains_starts_with, starts_with_app. Qed.

Lemma contains_infix (needle before after : str) :
  contains needle (before ++ needle ++ after) = true.
Proof.
  induction before as [|c before IH].
  - simpl. apply contains_prefix.
  - simpl. rewrite IH. apply orb_true_r.
Qed.

Lemma contains_app_r (needle before hay : str) :
  contains needle hay = true -> contains needle (before ++ hay) = true.
Proof.
  intros H. induction before as [|c before IH]; simpl; [exact H|].
  rewrite IH. apply orb_true_r.
Qed.

Lemma adjust_index_nat (len i : nat) :
  adjust_index (Z.of_nat len) (Z.of_nat i) = Z.of_nat (Nat.min i len).
Proof.
  unfold adjust_index.
  destruct (Z.ltb_spec (Z.of_nat i) 0); lia.
Qed.

(** A slice between two non-negative indices keeps the items whose index is
    at least [lo] and below [hi]; an index past the end is not an error. *)
Lemma slice_nat (A : Type) (l : list A) (lo hi : nat) :
  slice l (Z.of_nat lo) (Z.of_nat hi) = skipn lo (firstn hi l).
Proof.
  unfold slice. rewrite !adjust_index_nat.
  replace (Z.to_nat (Z.of_nat (Nat.min hi (List.length l))
                     - Z.of_nat (Nat.min lo (List.length l))))
    with (Nat.min hi (List.length l) - Nat.min lo (List.length l)) by lia.
  rewrite Nat2Z.id.
  destruct (Nat.le_gt_cases (List.length l) lo) as [Hlo|Hlo].
  - rewrite (Nat.min_r lo) by assumption.
    rewrite (skipn_all2 l) by lia.
    rewrite (skipn_all2 (firstn hi l)); [destruct (_ - _); reflexivity|].
    rewrite length_firstn. lia.
  - rewrite (Nat.min_l lo) by lia.
    rewrite firstn_skipn_comm.
    destruct (Nat.le_gt_cases hi (List.length l)) as [Hhi|Hhi].
    + rewrite (Nat.min_l hi) by assumption.
      destruct (Nat.le_gt_cases lo hi) as [Hle|Hgt].
      * replace (lo + (hi - lo)) with hi by lia. reflexivity.
      * replace (hi - lo) with 0 by lia. rewrite Nat.add_0_r.
        rewrite (skipn_all2 (firstn hi l)) by (rewrite length_firstn; lia).
        apply skipn_all2. rewrite length_firstn. lia.
    + rewrite (Nat.min_r hi) by lia.
      replace (lo + (List.length l - lo)) with (List.length l) by lia.
      rewrite firstn_all. rewrite (firstn_all2 l) by lia. reflexivity.
Qed.

(** The context window of the parse diagnostic, for an error at [pos]. *)
Lemma window_slice (content : str) (pos : nat) :
  slice content (Z.max 0 (Z.of_nat pos - 20)) (Z.of_nat pos + 20) =
  skipn (pos - 20) (firstn (pos + 20) content).
Proof.
  replace (Z.max 0 (Z.of_nat pos - 20)) with (Z.of_nat (pos - 20)) by lia.
  replace (Z.of_nat pos + 20)%Z with (Z.of_nat (pos + 20)) by lia.
  apply slice_nat.
Qed.

(** ** Decoding errors *)

Lemma utf_16_units_error (n : nat) :
  forall bo object q pos e,
    List.length q <= n ->
    utf_16_units bo object q pos = inl e ->
    type_of e = UnicodeDecodeError.
Proof.
  induction n as [|n IH]; intros bo object q pos e Hlen H.
  - destruct q; [discriminate H | simpl in Hlen; lia].
  - destruct q as [|b0 [|b1 q1]]; simpl in H.
    + discriminate H.
    + injection H as <-. reflexivity.
    + destruct (negb (is_surrogate (code_unit bo b0 b1))).
      * destruct (utf_16_units bo object q1 (pos + 2)) as [e'|s] eqn:Hrec;
          [|discriminate H].
        injection H as <-. apply (IH bo object q1 (pos + 2)); [simpl in Hlen; lia | exact Hrec].
      * destruct (negb (is_high_surrogate (code_unit bo b0 b1))).
        { injection H as <-. reflexivity. }
        destruct q1 as [|b2 [|b3 q2]]; try (injection H as <-; reflexivity).
        destruct (negb (is_low_surrogate (code_unit bo b2 b3))).
        { injection H as <-. reflexivity. }
        destruct (utf_16_units bo object q2 (pos + 4)) as [e'|s] eqn:Hrec;
          [|discriminate H].
        injection H as <-.
        apply (IH bo object q2 (pos + 4)); [simpl in Hlen; lia | exact Hrec].
Qed.

(** Whatever goes wrong when a file is read as UTF-16 text is a
    [UnicodeError], hence a [ValueError] and an [Exception]. *)
Lemma decode_error_class (data : bytes) (e : exn) :
  decode_utf_16_text data = inl e ->
  type_of e = UnicodeDecodeError \/ type_of e = UnicodeError.
Proof.
  unfold decode_utf_16_text, utf_16_buffer_decode, utf_16_ex_decode.
  intros H.
  destruct (match data with
            | b0 :: b1 :: rest =>
                if (N.lor (N.shiftl (Byte.to_N b1) 8) (Byte.to_N b0) =? 0xFEFF)%N
                then ((-1)%Z, rest, 2)
                else if (N.lor (N.shiftl (Byte.to_N b1) 8) (Byte.to_N b0) =? 0xFFFE)%N
                     then (1%Z, rest, 2)
                     else (0%Z, data, 0)
            | _ => (0%Z, data, 0)
            end) as [[byteorder q] skipped].
  destruct (utf_16_units _ data q skipped) as [e'|output] eqn:Hunits.
  - injection H as <-. left.
    apply (utf_16_units_error (n := List.length q) _ _ _ _ (le_n _) Hunits).
  - destruct (byteorder =? -1)%Z; [discriminate H|].
    destruct (byteorder =? 1)%Z; [discriminate H|].
    destruct (2 <=? List.length data); [|discriminate H].
    injection H as <-. right. reflexivity.
Qed.

Lemma decode_error_is_Exception (data : bytes) (e : exn) :
  decode_utf_16_text data = inl e -> isinstance e Exception = true.
Proof.
  intros H. unfold isinstance.
  destruct (decode_error_class _ H) as [-> | ->]; reflexivity.
Qed.

Lemma decode_error_is_ValueError (data : bytes) (e : exn) :
  decode_utf_16_text data = inl e -> isinstance e ValueError = true.
Proof.
  intros H. unfold isinstance.
  destruct (decode_error_class _ H) as [-> | ->]; reflexivity.
Qed.

(** Whether a run of code units decodes, and to what, depends neither on
    the byte string the errors name nor on the offset they count from. *)
Lemma utf_16_units_relocate (n : nat) :
  forall bo object object' q pos pos' text,
    List.length q <= n ->
    utf_16_units bo object q pos = inr text ->
    utf_16_units bo object' q pos' = inr text.
Proof.
  induction n as [|n IH]; intros bo object object' q pos pos' text Hlen H.
  - destruct q; [exact H | simpl in Hlen; lia].
  - destruct q as [|b0 [|b1 q1]]; simpl in H |- *.
    + exact H.
    + discriminate H.
    + destruct (negb (is_surrogate (code_unit bo b0 b1))).
      * destruct (utf_16_units bo object q1 (pos + 2)) as [e|s] eqn:Hrec;
          [discriminate H|].
        rewrite (IH bo object object' q1 (pos + 2) (pos' + 2) s);
          [exact H | simpl in Hlen; lia | exact Hrec].
      * destruct (negb (is_high_surrogate (code_unit bo b0 b1))); [discriminate H|].
        destruct q1 as [|b2 [|b3 q2]]; try discriminate H.
        destruct (negb (is_low_surrogate (code_unit bo b2 b3))); [discriminate H|].
        destruct (utf_16_units bo object q2 (pos + 4)) as [e|s] eqn:Hrec;
          [discriminate H|].
        rewrite (IH bo object object' q2 (pos + 4) (pos' + 4) s);
          [exact H | simpl in Hlen; lia | exact Hrec].
Qed.

(** A byte-order mark followed by well-formed code units in its byte order
    is read as their text, with universal newlines. *)
Lemma decode_with_byte_order_mark (bo : byteorder) (body : bytes) (text : str) :
  utf_16_units bo body body 0 = inr text ->
  decode_utf_16_text (byte_order_mark bo ++ body) = inr (translate_newlines text).
Proof.
  intros H.
  unfold decode_utf_16_text, utf_16_buffer_decode, utf_16_ex_decode.
  destruct bo.
  - change (byte_order_mark LittleEndian ++ body) with (Byte.xff :: Byte.xfe :: body).
    cbv iota beta.
    change (N.lor (N.shiftl (Byte.to_N Byte.xfe) 8) (Byte.to_N Byte.xff) =? 0xFEFF)%N
      with true.
    cbv iota beta. change (-1 <=? 0)%Z with true. cbv iota.
    rewrite (utf_16_units_relocate (n := List.length body) LittleEndian body
               (Byte.xff :: Byte.xfe :: body) body 0 2 (le_n _) H).
    reflexivity.
  - change (byte_order_mark BigEndian ++ body) with (Byte.xfe :: Byte.xff :: body).
    cbv iota beta.
    change (N.lor (N.shiftl (Byte.to_N Byte.xff) 8) (Byte.to_N Byte.xfe) =? 0xFEFF)%N
      with false.
    change (N.lor (N.shiftl (Byte.to_N Byte.xff) 8) (Byte.to_N Byte.xfe) =? 0xFFFE)%N
      with true.
    cbv iota beta. change (1 <=? 0)%Z with false. cbv iota.
    rewrite (utf_16_units_relocate (n := List.length body) BigEndian body
               (Byte.xfe :: Byte.xff :: body) body 0 2 (le_n _) H).
    reflexivity.
Qed.

(** ** The process monad *)

Section ProcLaws.

Variable value : Type.

Lemma Proc_bind_ret_l (A B : Type) (a : A) (f : A -> Proc value B) :
  @bind _ (Monad_Proc value) _ _ (@ret _ (Monad_Proc value) _ a) f = f a.
Proof. cbn. destruct (f a); reflexivity. Qed.

Lemma Proc_bind_ret_r (A : Type) (m : Proc value A) :
  @bind _ (Monad_Proc value) _ _ m (@ret _ (Monad_Proc value) A) = m.
Proof.
  destruct m as [t [e|a]]; cbn; [reflexivity|].
  rewrite app_nil_r. reflexivity.
Qed.

Lemma Proc_bind_assoc (A B C : Type) (m : Proc value A)
  (f : A -> Proc value B) (g : B -> Proc value C) :
  @bind _ (Monad_Proc value) _ _ (@bind _ (Monad_Proc value) _ _ m f) g =
  @bind _ (Monad_Proc value) _ _ m (fun a => @bind _ (Monad_Proc value) _ _ (f a) g).
Proof.
  destruct m as [t [e|a]]; cbn; [reflexivity|].
  destruct (f a) as [t' [e|b]]; cbn; [reflexivity|].
  destruct (g b) as [t'' r]; cbn. rewrite app_assoc. reflexivity.
Qed.

(** An exception that is not an instance of any clause's class passes
    through [try ... except]. *)
Lemma try_except_passes (A : Type) (t : list (event value)) (e : exn)
  (hs : list (handler value A)) :
  forallb (fun h => negb (isinstance e (fst h))) hs = true ->
  try_except (t, inl e) hs = (t, inl e).
Proof.
  intros Hnone. unfold try_except. cbn.
  assert (Hd : dispatch hs e = ([], inl e)).
  { induction hs as [|[c h] hs IH]; [reflexivity|].
    cbn in Hnone. apply andb_prop in Hnone as [Hc Hrest].
    apply negb_true_iff in Hc. cbn. rewrite Hc. exact (IH Hrest). }
  rewrite Hd. cbn. rewrite app_nil_r. reflexivity.
Qed.

End ProcLaws.

(** ** The Syntax Checker *)

#[local] Arguments lit : simpl never.
#[local] Arguments hex : simpl never.
#[local] Arguments slice : simpl never.
#[local] Arguments str_of_nat : simpl never.
#[local] Arguments str_of : simpl never.
#[local] Arguments decode_utf_16_text : simpl never.
#[local] Arguments isinstance : simpl never.
#[local] Arguments firstn : simpl never.

Section CheckFile.

Variable value : Type.
Variable loads : str -> loads_result value.
Variable repr : str -> str.
Variable fs : filesystem.
Variable argv0 : str.

(** The run of the Syntax Checker on one argument, case by case. *)
Lemma check_file_run (path : str) :
  let o := run (check_file_script loads repr fs argv0 [path]) in
  exit_status o = (match failure_of loads fs path with None => 0 | Some _ => 1 end)%Z /\
  traceback o = None /\
  stdout o =
    match failure_of loads fs path with
    | None => [lit "Valid JSON file"]
    | Some (f, e) => [diagnostic_prefix f ++ str_of repr e]
    end /\
  parsed (trace o) = decoded_text fs path.
Proof.
  unfold failure_of, decoded_text, check_file_script, check_json_file, open_file,
    json_load, read_text, json_loads, str_exc.
  cbn.
  destruct (fs path) as [[[|] data|sz]|]; cbn; auto.
  destruct (decode_utf_16_text data) as [e|text] eqn:Hdec; cbn.
  - rewrite (decode_error_is_ValueError _ Hdec). cbn. auto.
  - destruct (loads text); cbn; auto.
Qed.



(** C1, as amended.  When the file at the path holds a byte-order mark
    followed by well-formed UTF-16 code units in the byte order the mark
    announces, and their text (read with universal newlines, as the text
    mode of [open] hands it on) parses as JSON, the Syntax Checker prints
    the single line "Valid JSON file" and ends with status 0. *)
Theorem syntax_checker_accepts_with_bom
  (path : str) (bo : byteorder) (body : bytes) (text : str) (v : value) :
  fs path = Some (RegularFile true (byte_order_mark bo ++ body)) ->
  utf_16_units bo body body 0 = inr text ->
  loads (translate_newlines text) = Loaded v ->
  let o := run (check_file_script loads repr fs argv0 [path]) in
  stdout o = [lit "Valid JSON file"] /\ exit_status o = 0%Z.
Proof.
  intros Hfs Hunits Hload o.
  destruct (check_file_run path) as (Hexit & _ & Hout & _).
  fold o in Hexit, Hout. unfold failure_of in Hexit, Hout.
  rewrite Hfs, (decode_with_byte_order_mark _ _ Hunits), Hload in Hexit, Hout.
  split; assumption.
Qed.


(** Only a file whose bytes decode as UTF-16 and parse is accepted. *)
Lemma syntax_checker_accepts_only_utf16 (path : str) :
  exit_status (run (check_file_script loads repr fs argv0 [path])) = 0%Z ->
  exists data, fs path = Some (RegularFile true data) /\ utf16_json loads data.
Proof.
  intros H0.
  destruct (check_file_run path) as (Hexit & _).
  rewrite H0 in Hexit. unfold failure_of in Hexit.
  destruct (fs path) as [[[|] data|sz]|]; try discriminate Hexit.
  exists data. split; [reflexivity|].
  destruct (decode_utf_16_text data) as [e|text] eqn:Hdec; [discriminate Hexit|].
  destruct (loads text) as [v| | |] eqn:Hload; try discriminate Hexit.
  exists text, v. auto.
Qed.

(** A file whose bytes do not decode is turned down before the parser is
    called. *)
Lemma syntax_checker_decode_failure (path : str) (data : bytes) (e : exn) :
  fs path = Some (RegularFile true data) ->
  decode_utf_16_text data = inl e ->
  let o := run (check_file_script loads repr fs argv0 [path]) in
  stdout o = [lit "Invalid JSON file: " ++ str_of repr e] /\
  exit_status o = 1%Z /\ parsed (trace o) = [].
Proof.
  intros Hfs Hdec o.
  destruct (check_file_run path) as (Hexit & _ & Hout & Hparsed).
  fold o in Hexit, Hout, Hparsed.
  unfold failure_of in Hexit, Hout. unfold decoded_text in Hparsed.
  rewrite Hfs, Hdec in Hexit, Hout, Hparsed. auto.
Qed.

End CheckFile.

(** ** The Schema Validator *)

(** Symbolic execution of a script: unfold the primitives, compute, decide
    the [except] clauses on exceptions of a known class, and split on what
    the file system and the collaborators answer. *)
Ltac eval_isinstance :=
  repeat match goal with
    | |- context [isinstance ?e ?c] =>
        let b := eval cbv in (isinstance e c) in
        match b with
        | true => change (isinstance e c) with true
        | false => change (isinstance e c) with false
        end
    end.

Ltac unfold_validator :=
  unfold verify_json_file_script, main, validate_and_load_json,
    os_path_exists, os_path_getsize, open_file, read_bytes, read_text,
    json_loads, model_validate, logging_info, logging_error, print, sys_exit,
    str_exc, emit.

Ltac execute fs loads validate :=
  repeat (cbn; eval_isinstance;
          match goal with
          | H : decode_utf_16_text _ = inl ?e |- context [isinstance ?e Exception] =>
              rewrite (decode_error_is_Exception _ H)
          | |- context [match fs ?p with _ => _ end] =>
              destruct (fs p) as [[[|] ?|?]|] eqn:?
          | |- context [(?z =? 0)%Z] => destruct (Z.eqb_spec z 0)
          | |- context [decode_utf_16_text ?d] =>
              destruct (decode_utf_16_text d) eqn:?
          | |- context [loads ?t] => destruct (loads t) eqn:?
          | |- context [validate ?v] => destruct (validate v) eqn:?
          end);
  cbn; repeat (progress eval_isinstance; cbn).

(** A regular file of size zero has no bytes. *)
Lemma size_zero_no_bytes (data : bytes) :
  Z.of_nat (List.length data) = 0%Z -> data = [].
Proof. destruct data; [reflexivity | discriminate]. Qed.

(** Symbolic execution that asks the file system first. *)
Ltac walk fs loads validate path :=
  unfold verify_json_file_script;
  cbn [List.length Nat.add Nat.eqb negb nth];
  unfold_validator;
  destruct (fs path) as [[[|] ?|?]|] eqn:?;
  execute fs loads validate.

(** Symbolic execution along one path: the answer of the file system is
    known. *)
Ltac start_validator Hfs :=
  unfold verify_json_file_script;
  cbn [List.length Nat.add Nat.eqb negb nth];
  unfold_validator;
  rewrite !Hfs; cbn.

Ltac nonempty Hdata :=
  match goal with
  | |- context [(Z.of_nat (List.length ?d) =? 0)%Z] =>
      destruct (Z.eqb_spec (Z.of_nat (List.length d)) 0) as [Hz|_];
      [elim Hdata; apply size_zero_no_bytes, Hz | cbn]
  end.

(** *** Linear runs *)

Section Stages.

Variable value : Type.
Variable model : Type.
Variable loads : str -> loads_result value.
Variable validate : value -> validation_result model.
Variable fs : filesystem.
Variable path : str.

(** A linear run enters a prefix of the stages, and a proper prefix only
    when a stage fails. *)
Lemma entered_prefix (l : list stage) :
  exists k,
    k <= List.length l /\
    entered loads validate fs path l = firstn k l /\
    (l <> [] -> 1 <= k) /\
    (k < List.length l -> forallb (stage_passes loads validate fs path) l = false).
Proof.
  induction l as [|s l (k & Hk & Heq & Hpos & Hfail)].
  - exists 0. split; [reflexivity|]. split; [reflexivity|].
    split; [intros H; elim H; reflexivity | inversion 1].
  - cbn [entered forallb List.length].
    destruct (stage_passes loads validate fs path s).
    + exists (S k). split; [lia|]. split; [rewrite Heq; reflexivity|].
      split; [lia|]. intros Hlt. apply Hfail. lia.
    + exists 1. split; [lia|]. split; [reflexivity|]. split; reflexivity.
Qed.

Lemma entered_incl (l : list stage) (s : stage) :
  In s (entered loads validate fs path l) -> In s l.
Proof.
  induction l as [|s0 l IH]; [intros []|].
  cbn [entered]. destruct (stage_passes loads validate fs path s0).
  - intros [->|Hin]; [left; reflexivity | right; exact (IH Hin)].
  - intros [->|[]]. left. reflexivity.
Qed.

(** A stage that fails is the last one entered. *)
Lemma entered_stops (l : list stage) (s : stage) :
  In s (entered loads validate fs path l) ->
  stage_passes loads validate fs path s = false ->
  exists earlier, entered loads validate fs path l = earlier ++ [s].
Proof.
  induction l as [|s0 l IH]; [intros []|].
  cbn [entered]. destruct (stage_passes loads validate fs path s0) eqn:Hs0.
  - intros [->|Hin] Hs; [congruence|].
    destruct (IH Hin Hs) as [earlier ->]. exists (s0 :: earlier). reflexivity.
  - intros [->|[]] _. exists []. reflexivity.
Qed.

(** A stage that passes is followed by the next one. *)
Lemma entered_next (s s' : stage) :
  In s (entered loads validate fs path all_stages) ->
  stage_passes loads validate fs path s = true ->
  next_stage s = Some s' ->
  In s' (entered loads validate fs path all_stages).
Proof.
  intros Hin Hs Hnext.
  destruct s; cbn [next_stage] in Hnext; try discriminate Hnext;
    injection Hnext as <-; revert Hin Hs.
  all: unfold all_stages; cbn [entered].
  all: generalize (stage_passes loads validate fs path Existence),
         (stage_passes loads validate fs path Emptiness),
         (stage_passes loads validate fs path Preview),
         (stage_passes loads validate fs path Decode),
         (stage_passes loads validate fs path Parse),
         (stage_passes loads validate fs path Schema).
  all: intros b1 b2 b3 b4 b5 b6.
  all: destruct b1, b2, b3, b4, b5, b6; cbn; try tauto; intuition congruence.
Qed.

End Stages.

(** *** The [__main__] block

    The theorems of this section are about [verify_json_file_script], the
    [__main__] block, on an arbitrary file system: the one the module-level
    statements leave when they succeed.  [whole_module_run] below carries
    them over to the whole run of the file. *)

Section VerifyJsonFile.

Variable value : Type.
Variable model : Type.
Variable loads : str -> loads_result value.
Variable validate : value -> validation_result model.
Variable str_model : model -> str.
Variable repr : str -> str.
Variable fs : filesystem.
Variable argv0 : str.

(** The stages the Schema Validator enters on one argument are those of a
    linear run, and it ends with status 0 when all six pass and with status
    1 otherwise. *)
Lemma validator_run (path : str) :
  let o := run (verify_json_file_script loads validate str_model repr fs argv0 [path]) in
  stages (trace o) = entered loads validate fs path all_stages /\
  exit_status o =
    (if forallb (stage_passes loads validate fs path) all_stages then 0 else 1)%Z.
Proof.
  intros o. subst o. unfold all_stages, entered, forallb, stage_passes.
  walk fs loads validate path.
  all: split; reflexivity.
Qed.

(** C5. Every run of the Schema Validator enters its stages in the order
    existence check, emptiness check, byte preview, decoding, parsing,
    schema validation, each at most once: the first is entered when there
    is one argument, and a later one exactly when the stage before it has
    passed.  A stage that fails is the last one entered and the run ends
    with status 1; a stage that passes is followed by the next; the run
    ends with status 0 exactly when all six have passed. *)
Theorem validator_stages_in_order (args : list str) :
  let o := run (verify_json_file_script loads validate str_model repr fs argv0 args) in
  let passes := stage_passes loads validate fs in
  stages (trace o) =
    match args with
    | [path] => entered loads validate fs path all_stages
    | _ => []
    end /\
  (exit_status o = 0%Z <->
   exists path, args = [path] /\ forallb (passes path) all_stages = true) /\
  (exit_status o = 0%Z \/ exit_status o = 1%Z) /\
  (exists k,
      k <= 6 /\
      stages (trace o) = firstn k all_stages /\
      (List.length args = 1 -> 1 <= k) /\
      (k < 6 -> exit_status o = 1%Z)) /\
  (forall path s,
      args = [path] -> In s (stages (trace o)) -> passes path s = false ->
      exit_status o = 1%Z /\ exists earlier, stages (trace o) = earlier ++ [s]) /\
  (forall path s s',
      args = [path] -> In s (stages (trace o)) -> passes path s = true ->
      next_stage s = Some s' -> In s' (stages (trace o))).
Proof.
  intros o passes. subst o passes.
  destruct args as [|path [|path' args]].
  - cbn. split; [reflexivity|]. split.
    { split; [discriminate | intros (p & Hp & _); discriminate Hp]. }
    split; [right; reflexivity|]. split.
    { exists 0. repeat split; solve [lia | reflexivity | discriminate]. }
    split; intros; discriminate.
  - destruct (validator_run path) as [Hstages Hexit].
    rewrite Hstages, Hexit.
    split; [reflexivity|]. split.
    { destruct (forallb (stage_passes loads validate fs path) all_stages) eqn:Hall.
      - split; [intros _; exists path; split; [reflexivity | exact Hall] | reflexivity].
      - split; [discriminate|]. intros (p & Hp & Hall'). injection Hp as <-. congruence. }
    split.
    { destruct (forallb (stage_passes loads validate fs path) all_stages); auto. }
    split.
    { destruct (entered_prefix loads validate fs path all_stages)
        as (k & Hk & Heq & Hpos & Hfail).
      exists k. split; [exact Hk|]. split; [exact Heq|].
      split; [intros _; apply Hpos; discriminate|].
      intros Hlt. rewrite (Hfail Hlt). reflexivity. }
    split.
    + intros p s Hp Hin Hs. injection Hp as <-. split.
      * destruct (forallb (stage_passes loads validate fs path) all_stages) eqn:Hall;
          [|reflexivity].
        rewrite forallb_forall in Hall.
        rewrite (Hall s (entered_incl _ _ _ _ _ _ Hin)) in Hs. discriminate Hs.
      * exact (entered_stops _ _ _ _ _ _ Hin Hs).
    + intros p s s' Hp Hin Hs Hnext. injection Hp as <-.
      exact (entered_next Hin Hs Hnext).
  - cbn. split; [reflexivity|]. split.
    { split; [discriminate | intros (p & Hp & _); discriminate Hp]. }
    split; [right; reflexivity|]. split.
    { exists 0. repeat split; solve [lia | reflexivity | discriminate]. }
    split; intros; discriminate.
Qed.

(** C6. On an existing file of size zero the Schema Validator prints the
    line that says the file is empty and ends with status 1, after the
    existence check and the size check only: the file is not opened, so
    nothing is decoded or parsed. *)
Theorem empty_file_rejected (path : str) (n : node) :
  fs path = Some n ->
  st_size_of n = 0%Z ->
  let o := run (verify_json_file_script loads validate str_model repr fs argv0 [path]) in
  let line := lit "Error: File '" ++ path ++ lit "' is empty" in
  trace o = [EvExists value path; EvGetsize value path; EvPrint value line] /\
  stdout o = [line] /\
  contains (lit "is empty") line = true /\
  exit_status o = 1%Z /\ traceback o = None /\
  stages (trace o) = [Existence; Emptiness] /\ parsed (trace o) = [].
Proof.
  intros Hfs Hsize o line. subst o line.
  unfold_validator. cbn. rewrite Hfs. cbn. rewrite Hsize. cbn.
  repeat split.
  apply contains_app_r, contains_app_r.
  change (lit "' is empty") with (lit "' " ++ lit "is empty" ++ []).
  apply contains_infix.
Qed.

(** C7. On an existing, readable, non-empty file whose bytes are not valid
    UTF-16 the decode stage fails: the run prints the byte preview and then
    a line "File reading error: ..." with the decoding error, ends with
    status 1, and never calls the JSON parser. *)
Theorem undecodable_file_rejected (path : str) (data : bytes) (e : exn) :
  fs path = Some (RegularFile true data) ->
  data <> [] ->
  decode_utf_16_text data = inl e ->
  let o := run (verify_json_file_script loads validate str_model repr fs argv0 [path]) in
  stdout o = [ lit "First bytes (hex): " ++ hex (firstn 10 data);
               lit "File reading error: " ++ str_of repr e ] /\
  exit_status o = 1%Z /\ traceback o = None /\
  stages (trace o) = [Existence; Emptiness; Preview; Decode] /\
  parsed (trace o) = [].
Proof.
  intros Hfs Hdata Hdec o. subst o.
  unfold_validator. cbn. rewrite Hfs. cbn.
  destruct (Z.eqb_spec (Z.of_nat (List.length data)) 0) as [Hz|_];
    [elim Hdata; apply size_zero_no_bytes, Hz|].
  cbn. rewrite Hdec. cbn.
  rewrite (decode_error_is_Exception _ Hdec). cbn.
  repeat split.
Qed.

(** C3, as amended.  When the parser turns the decoded text down with its
    decode error ([JSONDecodeError]), at offset [pos] of the text, the
    Schema Validator prints the parser's message and then
    the offset with a window of the text around it, and ends with status 1.
    The window holds the characters at the offsets from [pos - 20] (from 0
    when [pos < 20]) up to, and not including, [pos + 20]; when the text
    ends before [pos + 20] the window runs to the end of the text. *)
Theorem parse_error_diagnostic (path : str) (data : bytes) (text msg : str) (pos : nat) :
  fs path = Some (RegularFile true data) ->
  data <> [] ->
  decode_utf_16_text data = inr text ->
  loads text = Malformed msg pos ->
  let o := run (verify_json_file_script loads validate str_model repr fs argv0 [path]) in
  let window := skipn (pos - 20) (firstn (pos + 20) text) in
  stdout o = [ lit "First bytes (hex): " ++ hex (firstn 10 data);
               lit "File content starts with: " ++ slice text 0 50 ++ lit "...";
               lit "JSON parsing error: " ++ str_of repr (E_JSONDecodeError msg text pos);
               lit "Error at position " ++ str_of_nat pos ++ lit ", near: '"
                 ++ window ++ lit "'" ] /\
  exit_status o = 1%Z /\ traceback o = None /\
  (pos <= 20 -> window = firstn (pos + 20) text) /\
  (List.length text <= pos + 20 -> window = skipn (pos - 20) text) /\
  (20 <= pos -> pos + 20 <= List.length text -> List.length window = 40) /\
  List.length window <= 40.
Proof.
  intros Hfs Hdata Hdec Hload o window. subst o.
  unfold_validator. cbn. rewrite Hfs. cbn.
  destruct (Z.eqb_spec (Z.of_nat (List.length data)) 0) as [Hz|_];
    [elim Hdata; apply size_zero_no_bytes, Hz|].
  cbn. rewrite Hdec. cbn. rewrite Hload. cbn.
  repeat (progress eval_isinstance; cbn).
  rewrite Nat2Z.id, window_slice. fold window.
  split; [reflexivity|]. split; [reflexivity|]. split; [reflexivity|].
  subst window. repeat split.
  - intros Hpos. replace (pos - 20) with 0 by lia. reflexivity.
  - intros Hlen. rewrite firstn_all2 by assumption. reflexivity.
  - intros Hlo Hhi. rewrite length_skipn, length_firstn. lia.
  - rewrite length_skipn, length_firstn. lia.
Qed.

(** C2. On a readable, non-empty file whose text parses, schema validation
    ends in one of two ways.  Either the value conforms: the run logs "Data
    loaded successfully" at level INFO, prints the validated model last and
    ends with status 0.  Or it does not: the exception is caught, one line
    that begins "Error validating data" is logged at level ERROR and printed,
    and the run ends with status 1. *)
Theorem schema_validation_outcomes (path : str) (data : bytes) (text : str) (v : value) :
  fs path = Some (RegularFile true data) ->
  data <> [] ->
  decode_utf_16_text data = inr text ->
  loads text = Loaded v ->
  let o := run (verify_json_file_script loads validate str_model repr fs argv0 [path]) in
  let progress_lines :=
    [ lit "First bytes (hex): " ++ hex (firstn 10 data);
      lit "File content starts with: " ++ slice text 0 50 ++ lit "...";
      lit "JSON parsed successfully!" ] in
  (exists m,
      validate v = Valid m /\
      log_file o = [(INFO, lit "Data loaded successfully")] /\
      stdout o = progress_lines
                   ++ [lit "Data loaded into AddUpdateRequest model successfully!";
                       str_model m] /\
      exit_status o = 0%Z /\ traceback o = None)
  \/
  (exists msg,
      let line := lit "Error validating data against AddUpdateRequest model: " ++ msg in
      validate v = Invalid msg /\
      log_file o = [(ERROR, line)] /\
      stdout o = progress_lines ++ [line] /\
      contains (lit "Error validating data") line = true /\
      exit_status o = 1%Z /\ traceback o = None).
Proof.
  intros Hfs Hdata Hdec Hload o progress_lines. subst o progress_lines.
  unfold_validator. cbn. rewrite Hfs. cbn.
  destruct (Z.eqb_spec (Z.of_nat (List.length data)) 0) as [Hz|_];
    [elim Hdata; apply size_zero_no_bytes, Hz|].
  cbn. rewrite Hdec. cbn. rewrite Hload. cbn.
  destruct (validate v) as [m|msg]; cbn; repeat (progress eval_isinstance; cbn).
  - left. exists m. repeat split.
  - right. exists msg. repeat split.
Qed.

(** The byte preview of a file that can be opened: the hexadecimal form of
    its first ten bytes, or of all of them when there are fewer. *)
Lemma preview_of_readable_file (path : str) (data : bytes) :
  fs path = Some (RegularFile true data) ->
  data <> [] ->
  let o := run (verify_json_file_script loads validate str_model repr fs argv0 [path]) in
  exists rest,
    stdout o = (lit "First bytes (hex): " ++ hex (firstn 10 data)) :: rest /\
    (List.length data <= 10 -> firstn 10 data = data) /\
    List.length (hex (firstn 10 data)) = 2 * Nat.min 10 (List.length data).
Proof.
  intros Hfs Hdata o.
  assert (Hhex : forall bs, List.length (hex bs) = 2 * List.length bs).
  { induction bs as [|b bs IH]; [reflexivity|].
    change (hex (b :: bs)) with (hex_byte b ++ hex bs).
    rewrite length_app, IH. simpl. lia. }
  rewrite Hhex, length_firstn.
  subst o. unfold_validator. cbn. rewrite Hfs. cbn.
  destruct (Z.eqb_spec (Z.of_nat (List.length data)) 0) as [Hz|_];
    [elim Hdata; apply size_zero_no_bytes, Hz|].
  execute fs loads validate.
  all: eexists; split; [reflexivity|]; split; [apply firstn_all2 | reflexivity].
Qed.

(** C8, at the input where it fails.  On an existing, non-empty file that
    the process may not read, [open] raises in the preview stage, outside
    every [try]: nothing is printed, the run ends with a traceback and
    status 1, and no later stage is entered. *)
Theorem preview_raises_on_unreadable_file (path : str) (data : bytes) :
  fs path = Some (RegularFile false data) ->
  data <> [] ->
  let o := run (verify_json_file_script loads validate str_model repr fs argv0 [path]) in
  stdout o = [] /\
  traceback o =
    Some (E_OSError PermissionError 13 (lit "Permission denied") path) /\
  exit_status o = 1%Z /\
  stages (trace o) = [Existence; Emptiness; Preview].
Proof.
  intros Hfs Hdata o. subst o.
  unfold_validator. cbn. rewrite Hfs. cbn.
  destruct (Z.eqb_spec (Z.of_nat (List.length data)) 0) as [Hz|_];
    [elim Hdata; apply size_zero_no_bytes, Hz|].
  cbn. repeat split.
Qed.

(** C10. A run that ends before the schema-validation stage writes no log
    record, whatever the arguments.  In every run nothing is logged before
    the schema library is called, and the log holds nothing, or the one INFO
    record of the success path, or the one ERROR record of the failure
    path. *)
Theorem log_only_in_schema_stage (args : list str) :
  let o := run (verify_json_file_script loads validate str_model repr fs argv0 args) in
  (~ In Schema (stages (trace o)) -> log_file o = []) /\
  logged (before_schema (trace o)) = [] /\
  (log_file o = [] \/
   log_file o = [(INFO, lit "Data loaded successfully")] \/
   exists msg,
     log_file o =
       [(ERROR, lit "Error validating data against AddUpdateRequest model: " ++ msg)]).
Proof.
  intros o. subst o.
  destruct args as [|path [|path' args]];
    [cbn; auto | | cbn; auto].
  unfold_validator. execute fs loads validate.
  all: split; [intros Hno; try reflexivity; elim Hno; cbn; tauto|].
  all: split; [reflexivity|].
  all: first [ left; reflexivity
             | right; left; reflexivity
             | right; right; eexists; reflexivity ].
Qed.

End VerifyJsonFile.

(** ** The whole run of [verify_json_file.py] *)

Lemma SystemExit_is_not_Exception (code : Z) :
  isinstance (E_SystemExit code) Exception = false.
Proof. reflexivity. Qed.

Section WholeModuleRun.

Variable value : Type.
Variable model : Type.
Variable loads : str -> loads_result value.
Variable validate : value -> validation_result model.
Variable str_model : model -> str.
Variable repr : str -> str.
Variable argv0 : str.

(** A start-up that succeeds leaves three events and the file system with
    the log file in place. *)
Lemma module_level_starts (env : environment) :
  starts env = true ->
  module_level value env =
    ([ EvImport value (lit "maestro_api_models.models.data.system.model");
       EvImport value
         (lit "maestro_api_models.models.request_response.add_update.model");
       EvBasicConfig value (lit "data_restore.log") ],
     inr (files_after_start env)).
Proof.
  unfold starts, files_after_start, module_level, import_from, logging_basicConfig,
    emit.
  destruct (import_error env (lit "maestro_api_models.models.data.system.model"));
    [discriminate|].
  destruct (import_error env
              (lit "maestro_api_models.models.request_response.add_update.model"));
    [discriminate|].
  destruct (files env (lit "data_restore.log")) as [[r d|sz]|];
    try discriminate; intros ->; reflexivity.
Qed.

(** What a process does after a computation that returns. *)
Lemma run_after (A : Type) (t : list (event value)) (a : A)
  (k : A -> Proc value unit) :
  let whole := run (@bind _ (Monad_Proc value) _ _ (t, inr a) k) in
  trace whole = t ++ trace (run (k a)) /\
  exit_status whole = exit_status (run (k a)) /\
  traceback whole = traceback (run (k a)).
Proof.
  cbv beta iota zeta delta [bind Monad_Proc].
  destruct (k a) as [t' [e|u]]; [destruct e|]; repeat split.
Qed.

(** When the start-up succeeds, the whole run is the three events of the
    start-up followed by the run of the [__main__] block on the file system
    the start-up leaves: what is proved of [verify_json_file_script] on every
    file system holds of the rest of the whole run. *)
Lemma whole_module_run (env : environment) (args : list str) :
  starts env = true ->
  let whole := run (verify_json_file_py loads validate str_model repr env argv0 args) in
  let block :=
    run (verify_json_file_script loads validate str_model repr
           (files_after_start env) argv0 args) in
  trace whole =
    [ EvImport value (lit "maestro_api_models.models.data.system.model");
      EvImport value
        (lit "maestro_api_models.models.request_response.add_update.model");
      EvBasicConfig value (lit "data_restore.log") ] ++ trace block /\
  exit_status whole = exit_status block /\
  traceback whole = traceback block.
Proof.
  intros Hstart. unfold verify_json_file_py.
  rewrite (module_level_starts env Hstart).
  apply run_after.
Qed.

(** The frame of the [__main__] block. *)
Lemma main_block_frame (fs : filesystem) (args : list str) :
  let o := run (verify_json_file_script loads validate str_model repr fs argv0 args) in
  (exists k,
      opened (trace o) =
      firstn k (match args with
                | [path] => [(path, true); (path, false)]
                | _ => []
                end)) /\
  configured (trace o) = [] /\
  (forall p, In p (paths (trace o)) -> args = [p]).
Proof.
  intros o. subst o.
  destruct args as [|path [|path' args]].
  - cbn. split; [exists 0; reflexivity|]. split; [reflexivity|]. intros p [].
  - walk fs loads validate path.
    all: split;
      [ first [ exists 0; reflexivity | exists 1; reflexivity | exists 2; reflexivity ] |].
    all: split; [reflexivity|].
    all: intros p Hin; repeat destruct Hin as [<-|Hin]; try reflexivity; destruct Hin.
  - cbn. split; [exists 0; reflexivity|]. split; [reflexivity|]. intros p [].
Qed.

(** In every run of [verify_json_file.py], whatever the environment and
    the arguments, the paths handed to the file system are [data_restore.log]
    and the single argument, and no other: the log file is set up at most
    once, and before anything is opened; nothing is opened but the file the
    argument names, first in binary mode and then in text mode. *)
Theorem schema_validator_frame (env : environment) (args : list str) :
  let o := run (verify_json_file_py loads validate str_model repr env argv0 args) in
  (forall p, In p (paths (trace o)) -> p = lit "data_restore.log" \/ args = [p]) /\
  (exists k,
      opened (trace o) =
      firstn k (match args with
                | [path] => [(path, true); (path, false)]
                | _ => []
                end)) /\
  (configured (trace o) = [] \/ configured (trace o) = [lit "data_restore.log"]) /\
  (opened (trace o) <> [] ->
   exists rest,
     trace o =
       [ EvImport value (lit "maestro_api_models.models.data.system.model");
         EvImport value
           (lit "maestro_api_models.models.request_response.add_update.model");
         EvBasicConfig value (lit "data_restore.log") ] ++ rest /\
     configured rest = []).
Proof.
  intros o. destruct (starts env) eqn:Hstart.
  - destruct (whole_module_run env args Hstart)
      as (Htrace & _).
    fold o in Htrace. rewrite Htrace.
    destruct (main_block_frame (files_after_start env) args)
      as (Hopened & Hconf & Hpaths).
    unfold opened, configured, paths in *. rewrite !flat_map_app.
    cbn [flat_map app]. rewrite Hconf.
    split.
    { intros p [<-|Hin]; [left; reflexivity | right; exact (Hpaths p Hin)]. }
    split; [exact Hopened|]. split; [right; reflexivity|].
    intros _; eexists; split; [reflexivity | exact Hconf].
  - subst o. revert Hstart.
    unfold starts, verify_json_file_py, module_level, import_from,
      logging_basicConfig, emit.
    destruct (import_error env (lit "maestro_api_models.models.data.system.model"))
      as [e1|].
    { intros _. destruct e1; cbn.
      all: split; [intros p []|]; split; [exists 0; reflexivity|].
      all: split; [left; reflexivity|]; intros H; elim H; reflexivity. }
    destruct (import_error env
                (lit "maestro_api_models.models.request_response.add_update.model"))
      as [e2|].
    { intros _. destruct e2; cbn.
      all: split; [intros p []|]; split; [exists 0; reflexivity|].
      all: split; [left; reflexivity|]; intros H; elim H; reflexivity. }
    destruct (files env (lit "data_restore.log")) as [[r d|sz]|];
      try (intros ->); try discriminate; intros; cbn.
    all: split; [intros p [<-|[]]; left; reflexivity|]; split; [exists 0; reflexivity|].
    all: split; [right; reflexivity|]; intros H; elim H; reflexivity.
Qed.

(** The module-level statements of [verify_json_file.py] run before the
    arguments are looked at and outside any [try].  The start-up fails
    exactly when one of them raises; the exception of an import that raises,
    and the error of a log file that is a directory or cannot be opened for
    appending, end the run with a traceback and status 1, after the events
    of the start-up alone: nothing is printed or logged and no file is
    looked at, whatever the arguments. *)
Theorem start_up_failure_is_not_handled (env : environment) (args : list str) :
  let o := run (verify_json_file_py loads validate str_model repr env argv0 args) in
  let system_model := lit "maestro_api_models.models.data.system.model" in
  let add_update := lit "maestro_api_models.models.request_response.add_update.model" in
  let log := lit "data_restore.log" in
  (starts env = false <-> exists e, snd (module_level value env) = inl e) /\
  (forall e,
      import_error env system_model = Some e ->
      isinstance e Exception = true ->
      trace o = [EvImport value system_model] /\
      traceback o = Some e /\ exit_status o = 1%Z) /\
  (forall e,
      import_error env system_model = None ->
      import_error env add_update = Some e ->
      isinstance e Exception = true ->
      trace o = [EvImport value system_model; EvImport value add_update] /\
      traceback o = Some e /\ exit_status o = 1%Z) /\
  (forall sz,
      import_error env system_model = None ->
      import_error env add_update = None ->
      files env log = Some (Directory sz) ->
      trace o = [EvImport value system_model; EvImport value add_update;
                 EvBasicConfig value log] /\
      traceback o =
        Some (E_OSError IsADirectoryError 21 (lit "Is a directory") (abspath env log)) /\
      exit_status o = 1%Z) /\
  (import_error env system_model = None ->
   import_error env add_update = None ->
   (forall sz, files env log <> Some (Directory sz)) ->
   appendable env log = false ->
   trace o = [EvImport value system_model; EvImport value add_update;
              EvBasicConfig value log] /\
   traceback o =
     Some (E_OSError PermissionError 13 (lit "Permission denied") (abspath env log)) /\
   exit_status o = 1%Z).
Proof.
  intros o system_model add_update log. subst o system_model add_update log.
  unfold starts, verify_json_file_py, module_level, import_from, logging_basicConfig,
    emit.
  destruct (import_error env (lit "maestro_api_models.models.data.system.model"))
    as [e1|] eqn:H1.
  { split; [split; [intros _; exists e1; reflexivity | reflexivity]|].
    split.
    { intros e [= <-] He.
      destruct e1; cbn; repeat split;
        rewrite SystemExit_is_not_Exception in He; discriminate He. }
    repeat split; discriminate. }
  destruct (import_error env
              (lit "maestro_api_models.models.request_response.add_update.model"))
    as [e2|] eqn:H2.
  { split; [split; [intros _; exists e2; reflexivity | reflexivity]|].
    split; [intros e He; discriminate He|].
    split.
    { intros e _ [= <-] He.
      destruct e2; cbn; repeat split;
        rewrite SystemExit_is_not_Exception in He; discriminate He. }
    repeat split; discriminate. }
  destruct (files env (lit "data_restore.log")) as [[r d|sz]|] eqn:Hlog;
    [ destruct (appendable env (lit "data_restore.log")) eqn:Happ
    | | destruct (appendable env (lit "data_restore.log")) eqn:Happ ];
    cbn.
  all: split;
    [ split; [ intros H; first [discriminate H | eexists; reflexivity]
             | intros [e He]; first [discriminate He | reflexivity] ] |].
  all: split; [intros e He; discriminate He|].
  all: split; [intros e _ He; discriminate He|].
  all: split; [intros sz' _ _ Hdir; try discriminate Hdir; repeat split|].
  all: intros _ _ Hnodir Happ'; try discriminate Happ'; try (elim (Hnodir sz); reflexivity);
    repeat split.
Qed.

End WholeModuleRun.

(** ** UTF-8 input *)

Lemma low_byte_of_code_unit (hi lo : N) :
  (lo < 256)%N -> (N.lor (N.shiftl hi 8) lo mod 256 = lo)%N.
Proof.
  intros Hlo.
  change 256%N with (2 ^ 8)%N.
  rewrite <- !N.land_ones, N.land_lor_distr_l.
  replace (N.land (N.shiftl hi 8) (N.ones 8)) with 0%N.
  - rewrite N.lor_0_l, N.land_ones. apply N.mod_small. exact Hlo.
  - symmetry. apply N.bits_inj. intros i. rewrite N.bits_0, N.land_spec.
    destruct (N.lt_ge_cases i 8) as [Hi|Hi].
    + rewrite N.shiftl_spec_low by assumption. reflexivity.
    + rewrite N.ones_spec_high by assumption. apply andb_false_r.
Qed.

Lemma byte_to_N_bound (b : Byte.byte) : (Byte.to_N b < 256)%N.
Proof. destruct b; reflexivity. Qed.

(** The first byte of well-formed UTF-8 is at most 0xF4, so it is not the
    first byte of a byte-order mark. *)
Lemma utf8_first_byte (b0 : Byte.byte) (rest : bytes) (text : str) :
  utf_8_decode (b0 :: rest) = Some text -> (Byte.to_N b0 <= 0xF4)%N.
Proof.
  cbn [utf_8_decode]. unfold between.
  destruct (N.ltb_spec (Byte.to_N b0) 0x80); [lia|].
  destruct (N.leb_spec 0xC2 (Byte.to_N b0)), (N.leb_spec (Byte.to_N b0) 0xDF);
    cbn [andb]; try lia.
  all: destruct (N.leb_spec 0xE0 (Byte.to_N b0)), (N.leb_spec (Byte.to_N b0) 0xEF);
    cbn [andb]; try lia.
  all: destruct (N.leb_spec 0xF0 (Byte.to_N b0)), (N.leb_spec (Byte.to_N b0) 0xF4);
    cbn [andb]; try lia; discriminate.
Qed.

(** No file that holds UTF-8 text, the empty file apart, can be read as
    UTF-16 text: one byte is a truncated code unit, and two bytes or more
    do not begin with a byte-order mark. *)
Lemma utf8_text_is_not_a_utf16_stream (data : bytes) (text : str) :
  utf_8_decode data = Some text ->
  data <> [] ->
  exists e, decode_utf_16_text data = inl e.
Proof.
  intros Hutf8 Hdata.
  destruct data as [|b0 [|b1 rest]]; [contradiction | eexists; reflexivity |].
  pose proof (utf8_first_byte _ _ Hutf8) as Hb0.
  pose proof (low_byte_of_code_unit (Byte.to_N b1) (byte_to_N_bound b0)) as Hlow.
  unfold decode_utf_16_text, utf_16_buffer_decode, utf_16_ex_decode.
  destruct (N.eqb_spec (N.lor (N.shiftl (Byte.to_N b1) 8) (Byte.to_N b0)) 0xFEFF) as [E|_].
  { rewrite E in Hlow. change (0xFEFF mod 256)%N with 255%N in Hlow. lia. }
  destruct (N.eqb_spec (N.lor (N.shiftl (Byte.to_N b1) 8) (Byte.to_N b0)) 0xFFFE) as [E|_].
  { rewrite E in Hlow. change (0xFFFE mod 256)%N with 254%N in Hlow. lia. }
  cbn [Z.leb Z.compare].
  destruct (utf_16_units LittleEndian (b0 :: b1 :: rest) (b0 :: b1 :: rest) 0) as [e|out].
  - exists e. reflexivity.
  - eexists. reflexivity.
Qed.

(** Hence the Syntax Checker turns down every non-empty UTF-8 file in the
    decoding, whatever the text is. *)
Lemma syntax_checker_rejects_utf8 (value : Type) (loads : str -> loads_result value)
  (repr : str -> str) (fs : filesystem) (argv0 path : str) (data : bytes) (text : str) :
  fs path = Some (RegularFile true data) ->
  utf_8_decode data = Some text ->
  data <> [] ->
  let o := run (check_file_script loads repr fs argv0 [path]) in
  exists e,
    decode_utf_16_text data = inl e /\
    stdout o = [lit "Invalid JSON file: " ++ str_of repr e] /\
    exit_status o = 1%Z /\ parsed (trace o) = [].
Proof.
  intros Hfs Hutf8 Hdata o.
  destruct (utf8_text_is_not_a_utf16_stream Hutf8 Hdata) as [e He].
  exists e. split; [exact He|].
  exact (@syntax_checker_decode_failure _ loads repr fs argv0 _ _ _ Hfs He).
Qed.

(** C9. There is a file that holds a JSON document in UTF-8 and not in
    UTF-16, the document [{"a": 1}], which the Syntax Checker turns down
    with a decoding error, before the parser is called, and status 1.  And
    whenever the Syntax Checker ends with status 0, the bytes of the file
    decode as UTF-16 and the text parses. *)
Theorem utf8_document_rejected :
  (exists data : bytes,
      utf8_json Sample.loads data /\
      ~ utf16_json Sample.loads data /\
      forall (value : Type) (loads : str -> loads_result value)
             (repr : str -> str) (fs : filesystem) (argv0 path : str),
        fs path = Some (RegularFile true data) ->
        let o := run (check_file_script loads repr fs argv0 [path]) in
        exists e,
          decode_utf_16_text data = inl e /\
          isinstance e UnicodeError = true /\
          stdout o = [lit "Invalid JSON file: " ++ str_of repr e] /\
          exit_status o = 1%Z /\ parsed (trace o) = []) /\
  (forall (value : Type) (loads : str -> loads_result value)
          (repr : str -> str) (fs : filesystem) (argv0 path : str),
      exit_status (run (check_file_script loads repr fs argv0 [path])) = 0%Z ->
      exists data, fs path = Some (RegularFile true data) /\ utf16_json loads data).
Proof.
  split.
  - exists (jbytes "{'a': 1}"). split; [|split].
    + exists (jlit "{'a': 1}"), (Json.JDict [(lit "a", Json.JInt 1)]).
      split; vm_compute; reflexivity.
    + intros (text & v & Hdec & _). vm_compute in Hdec. discriminate Hdec.
    + intros value loads repr fs argv0 path Hfs o.
      exists (E_UnicodeError (lit "UTF-16 stream does not start with BOM")).
      split; [vm_compute; reflexivity|]. split; [reflexivity|].
      apply (@syntax_checker_decode_failure _ loads repr fs argv0 _ _ _ Hfs).
      vm_compute. reflexivity.
  - intros value loads repr fs argv0 path.
    apply syntax_checker_accepts_only_utf16.
Qed.

(** ** The scripts on the sample files *)

Example decoder_object :
  Sample.loads (jlit "{'a': 1, 'a': 2, 'b': [true, null, -1.5e3, '\u00e9']}") =
  Loaded (Json.JDict
            [ (lit "a", Json.JInt 2);
              (lit "b", Json.JList [ Json.JBool true; Json.JNull;
                                     Json.JFloat (lit "-1.5e3");
                                     Json.JString [233%N] ]) ]).
Proof. vm_compute. reflexivity. Qed.

Example decoder_truncated :
  Sample.loads (jlit "{'a': 1") = Malformed (lit "Expecting ',' delimiter") 7.
Proof. vm_compute. reflexivity. Qed.

Example decoder_trailing_comma :
  Sample.loads (jlit "[1,]") = Malformed (lit "Expecting value") 3.
Proof. vm_compute. reflexivity. Qed.

Example decoder_extra_data :
  Sample.loads (jlit "01") = Malformed (lit "Extra data") 1.
Proof. vm_compute. reflexivity. Qed.

Example decoder_unterminated_string :
  Sample.loads (jlit "'abc") = Malformed (lit "Unterminated string starting at") 0.
Proof. vm_compute. reflexivity. Qed.

Example decoder_too_deep :
  Sample.loads (repeat 91%N 996 ++ repeat 93%N 996) =
  TooDeep (lit "maximum recursion depth exceeded while decoding a JSON array from a unicode string").
Proof. vm_compute. reflexivity. Qed.

(** The file holding [{"a": 1}] in UTF-16 is valid. *)
Example checker_valid :
  let o := Sample.check_file [lit "a.json"] in
  stdout o = [lit "Valid JSON file"] /\ exit_status o = 0%Z.
Proof. vm_compute. split; reflexivity. Qed.

(** The truncated document is not. *)
Example checker_truncated :
  let o := Sample.check_file [lit "truncated.json"] in
  stdout o =
    [lit "Invalid JSON file: Expecting ',' delimiter: line 1 column 8 (char 7)"] /\
  exit_status o = 1%Z.
Proof. vm_compute. split; reflexivity. Qed.

Example checker_directory :
  let o := Sample.check_file [lit "inventory"] in
  stdout o = [lit "Error: [Errno 21] Is a directory: 'inventory'"] /\
  exit_status o = 1%Z.
Proof. vm_compute. split; reflexivity. Qed.

Example checker_usage :
  let o := Sample.check_file [] in
  stdout o = [lit "Usage: python check_file.py <json_file>"] /\ exit_status o = 1%Z.
Proof. vm_compute. split; reflexivity. Qed.

Example validator_missing :
  let o := Sample.verify_json_file [lit "missing.json"] in
  stdout o = [lit "Error: File 'missing.json' does not exist"] /\
  exit_status o = 1%Z /\ stages (trace o) = [Existence].
Proof. vm_compute. repeat split; reflexivity. Qed.

Example validator_too_deep :
  let o := Sample.verify_json_file [lit "deep.json"] in
  nth 2 (stdout o) [] =
    lit "File reading error: maximum recursion depth exceeded while decoding a JSON array from a unicode string" /\
  exit_status o = 1%Z.
Proof. vm_compute. split; reflexivity. Qed.

Example validator_directory :
  let o := Sample.verify_json_file [lit "inventory"] in
  stdout o = [] /\ option_map type_of (traceback o) = Some IsADirectoryError /\
  exit_status o = 1%Z.
Proof. vm_compute. repeat split; reflexivity. Qed.

(** ** The whole run on the sample files *)

Example validator_whole_run :
  trace (Sample.verify_json_file_in Sample.env [lit "missing.json"]) =
    [ EvImport _ (lit "maestro_api_models.models.data.system.model");
      EvImport _ (lit "maestro_api_models.models.request_response.add_update.model");
      EvBasicConfig _ (lit "data_restore.log");
      EvExists _ (lit "missing.json");
      EvPrint _ (lit "Error: File 'missing.json' does not exist") ].
Proof. vm_compute. reflexivity. Qed.

(** The log file is in place before the argument is looked at: asked to
    validate a log file that was not there, the Schema Validator finds it
    empty. *)
Example validator_on_its_log_file :
  let o := Sample.verify_json_file_in Sample.env [lit "data_restore.log"] in
  Sample.fs (lit "data_restore.log") = None /\
  stdout o = [lit "Error: File 'data_restore.log' is empty"] /\
  exit_status o = 1%Z.
Proof. vm_compute. repeat split; reflexivity. Qed.

Example validator_without_schema_library :
  let o := Sample.verify_json_file_in Sample.without_schema_library [lit "ok.json"] in
  stdout o = [] /\
  option_map (str_of Sample.repr) (traceback o) =
    Some (lit "No module named 'maestro_api_models'") /\
  exit_status o = 1%Z.
Proof. vm_compute. repeat split; reflexivity. Qed.

Example validator_in_read_only_directory :
  let o := Sample.verify_json_file_in Sample.read_only_directory [lit "ok.json"] in
  stdout o = [] /\
  option_map (str_of Sample.repr) (traceback o) =
    Some (lit "[Errno 13] Permission denied: '/srv/restore/data_restore.log'") /\
  exit_status o = 1%Z.
Proof. vm_compute. repeat split; reflexivity. Qed.

(** ** The theorems at concrete inputs *)

(** C1, as the specification states it, fails: the file [nobom.json] holds
    the UTF-16 code units of [{"a": 1}], low byte first, without a
    byte-order mark.  Its contents are valid UTF-16-encoded text and the
    text parses as JSON, and the Syntax Checker turns it down. *)
Lemma utf16_without_bom_is_rejected :
  let data := utf_16_le_bmp (jlit "{'a': 1}") in
  let o := Sample.check_file [lit "nobom.json"] in
  Sample.fs (lit "nobom.json") = Some (RegularFile true data) /\
  utf_16_encodes data (jlit "{'a': 1}") /\
  Sample.loads (jlit "{'a': 1}") = Loaded (Json.JDict [(lit "a", Json.JInt 1)]) /\
  stdout o = [lit "Invalid JSON file: UTF-16 stream does not start with BOM"] /\
  exit_status o = 1%Z.
Proof.
  split; [reflexivity|]. split.
  - exists LittleEndian, (utf_16_le_bmp (jlit "{'a': 1}")).
    split; [left; reflexivity | vm_compute; reflexivity].
  - vm_compute. repeat split; reflexivity.
Qed.

Lemma syntax_checker_accepts_with_bom_witness :
  let o := Sample.check_file [lit "a.json"] in
  stdout o = [lit "Valid JSON file"] /\ exit_status o = 0%Z.
Proof.
  apply (@syntax_checker_accepts_with_bom _ Sample.loads Sample.repr Sample.fs
           (lit "check_file.py") (lit "a.json") LittleEndian
           (utf_16_le_bmp (jlit "{'a': 1}")) (jlit "{'a': 1}")
           (Json.JDict [(lit "a", Json.JInt 1)]));
    vm_compute; reflexivity.
Defined.


Lemma schema_validation_outcomes_witness :
  let o := Sample.verify_json_file [lit "ok.json"] in
  log_file o = [(INFO, lit "Data loaded successfully")] \/
  exists msg,
    log_file o =
      [(ERROR, lit "Error validating data against AddUpdateRequest model: " ++ msg)].
Proof.
  destruct (@schema_validation_outcomes _ _ Sample.loads Sample.validate
              Sample.str_model Sample.repr Sample.fs (lit "verify_json_file.py")
              (lit "ok.json")
              (BOM_LE ++ utf_16_le_bmp (jlit "{'data': [1, 2]}"))
              (jlit "{'data': [1, 2]}")
              (Json.JDict [(lit "data", Json.JList [Json.JInt 1; Json.JInt 2])]))
    as [(m & _ & Hlog & _) | (msg & _ & Hlog & _)];
    try (vm_compute; reflexivity).
  - vm_compute. discriminate.
  - left. exact Hlog.
  - right. exists msg. exact Hlog.
Defined.

(** C3, as the specification states it, fails: the text of [deep.json]
    (996 opening brackets and as many closing ones) fails JSON parsing with
    a [RecursionError], which is not the parser's decode error: the run
    reports it as a file reading error, and no line gives an offset or a
    window of context. *)
Lemma parse_failure_without_offset :
  let text := repeat 91%N 996 ++ repeat 93%N 996 in
  let o := Sample.verify_json_file [lit "deep.json"] in
  Sample.fs (lit "deep.json") = Some (RegularFile true (BOM_LE ++ utf_16_le_bmp text)) /\
  decode_utf_16_text (BOM_LE ++ utf_16_le_bmp text) = inr text /\
  Sample.loads text =
    TooDeep (lit "maximum recursion depth exceeded while decoding a JSON array from a unicode string") /\
  stdout o =
    [ lit "First bytes (hex): fffe5b005b005b005b00";
      lit "File content starts with: " ++ repeat 91%N 50 ++ lit "...";
      lit "File reading error: maximum recursion depth exceeded while decoding a JSON array from a unicode string" ] /\
  forallb (fun line => negb (contains (lit "position") line)) (stdout o) = true /\
  exit_status o = 1%Z.
Proof. vm_compute. repeat split; reflexivity. Qed.

Lemma parse_error_diagnostic_witness :
  let o := Sample.verify_json_file [lit "long.json"] in
  nth 3 (stdout o) [] =
    lit "Error at position 40, near: '" ++ jlit ", 'items': [1, 2, 3,, 4], 'owner': 'ops'"
      ++ lit "'" /\
  exit_status o = 1%Z.
Proof.
  destruct (@parse_error_diagnostic _ _ Sample.loads Sample.validate
              Sample.str_model Sample.repr Sample.fs (lit "verify_json_file.py")
              (lit "long.json")
              (BOM_LE ++ utf_16_le_bmp
                 (jlit "{'name': 'inventory', 'items': [1, 2, 3,, 4], 'owner': 'ops'}"))
              (jlit "{'name': 'inventory', 'items': [1, 2, 3,, 4], 'owner': 'ops'}")
              (lit "Expecting value") 40)
    as (Hout & Hexit & _);
    try (vm_compute; reflexivity).
  - vm_compute. discriminate.
  - split; [|exact Hexit].
    change (Sample.verify_json_file [lit "long.json"])
      with (run (verify_json_file_script Sample.loads Sample.validate Sample.str_model
                   Sample.repr Sample.fs (lit "verify_json_file.py") [lit "long.json"])).
    rewrite Hout. vm_compute. reflexivity.
Defined.

Lemma validator_stages_in_order_witness :
  let o := Sample.verify_json_file [lit "truncated.json"] in
  stages (trace o) = [Existence; Emptiness; Preview; Decode; Parse] /\
  exit_status o = 1%Z.
Proof.
  unfold Sample.verify_json_file. cbv zeta.
  destruct (@validator_stages_in_order _ _ Sample.loads Sample.validate
              Sample.str_model Sample.repr Sample.fs (lit "verify_json_file.py")
              [lit "truncated.json"])
    as (Hstages & _ & _ & _ & Hfail & _).
  split; [rewrite Hstages; vm_compute; reflexivity|].
  apply (Hfail (lit "truncated.json") Parse eq_refl);
    [rewrite Hstages; vm_compute; tauto | vm_compute; reflexivity].
Defined.

Lemma empty_file_rejected_witness :
  Sample.fs (lit "empty.json") = Some (RegularFile true []) /\
  (let o := Sample.verify_json_file [lit "empty.json"] in
   stdout o = [lit "Error: File 'empty.json' is empty"] /\ exit_status o = 1%Z).
Proof.
  split; [reflexivity|].
  destruct (@empty_file_rejected _ _ Sample.loads Sample.validate
              Sample.str_model Sample.repr Sample.fs (lit "verify_json_file.py")
              (lit "empty.json") (RegularFile true []))
    as (_ & Hout & _ & Hexit & _); try reflexivity.
  split; [exact Hout | exact Hexit].
Defined.

Lemma undecodable_file_rejected_witness :
  let o := Sample.verify_json_file [lit "utf8.json"] in
  stdout o = [ lit "First bytes (hex): 7b2261223a20317d";
               lit "File reading error: UTF-16 stream does not start with BOM" ] /\
  exit_status o = 1%Z /\ parsed (trace o) = [].
Proof.
  destruct (@undecodable_file_rejected _ _ Sample.loads Sample.validate
              Sample.str_model Sample.repr Sample.fs (lit "verify_json_file.py")
              (lit "utf8.json") (jbytes "{'a': 1}")
              (E_UnicodeError (lit "UTF-16 stream does not start with BOM")))
    as (Hout & Hexit & _ & _ & Hparsed);
    try (vm_compute; reflexivity).
  - vm_compute. discriminate.
  - split; [exact Hout | split; [exact Hexit | exact Hparsed]].
Defined.

Lemma preview_raises_on_unreadable_file_witness :
  let o := Sample.verify_json_file [lit "secret.json"] in
  stdout o = [] /\
  traceback o =
    Some (E_OSError PermissionError 13 (lit "Permission denied") (lit "secret.json")) /\
  exit_status o = 1%Z.
Proof.
  destruct (@preview_raises_on_unreadable_file _ _ Sample.loads Sample.validate
              Sample.str_model Sample.repr Sample.fs (lit "verify_json_file.py")
              (lit "secret.json") (BOM_LE ++ utf_16_le_bmp (jlit "{'a': 1}")))
    as (Hout & Htb & Hexit & _);
    try (vm_compute; reflexivity).
  - vm_compute. discriminate.
  - repeat split; assumption.
Defined.

Lemma log_only_in_schema_stage_witness :
  log_file (Sample.verify_json_file [lit "truncated.json"]) = [].
Proof.
  destruct (@log_only_in_schema_stage _ _ Sample.loads Sample.validate
              Sample.str_model Sample.repr Sample.fs (lit "verify_json_file.py")
              [lit "truncated.json"]) as (Hnone & _).
  apply Hnone. vm_compute.
  intros [H|[H|[H|[H|[H|[]]]]]]; discriminate H.
Defined.

(** ** More on decoding *)

Lemma code_unit_value (hi lo : N) :
  (lo < 256)%N -> N.lor (N.shiftl hi 8) lo = (hi * 256 + lo)%N.
Proof.
  intros Hlo.
  assert (Hdisjoint : N.land (N.shiftl hi 8) lo = 0%N).
  { apply N.bits_inj. intros i. rewrite N.bits_0, N.land_spec.
    destruct (N.lt_ge_cases i 8) as [Hi|Hi].
    - rewrite N.shiftl_spec_low by assumption. reflexivity.
    - replace (N.testbit lo i) with false; [apply andb_false_r|].
      symmetry. apply N.bits_above_log2.
      destruct (N.eq_0_gt_0_cases lo) as [->|Hpos]; [simpl; lia|].
      apply N.log2_lt_pow2; [assumption|].
      apply N.lt_le_trans with (2 ^ 8)%N; [exact Hlo|].
      apply N.pow_le_mono_r; [discriminate | assumption]. }
  rewrite <- N.lxor_lor by assumption.
  rewrite <- N.add_nocarry_lxor by assumption.
  rewrite N.shiftl_mul_pow2. reflexivity.
Qed.

Lemma octet_to_N (n : N) :
  (n < 256)%N ->
  Byte.to_N (match Byte.of_N n with Some b => b | None => Byte.x00 end) = n.
Proof.
  intros Hn. destruct (Byte.of_N n) as [b|] eqn:Hb.
  - apply Stdlib.Strings.Byte.to_of_N. exact Hb.
  - apply Stdlib.Strings.Byte.of_N_None_iff in Hb. lia.
Qed.

(** Two bytes are a byte-order mark exactly when the code unit read from
    them is U+FEFF in one byte order or the other. *)
Lemma bom_code_unit (b0 b1 : Byte.byte) (mark : N) (m0 m1 : Byte.byte) :
  mark = (Byte.to_N m1 * 256 + Byte.to_N m0)%N ->
  [b0; b1] <> [m0; m1] ->
  (N.lor (N.shiftl (Byte.to_N b1) 8) (Byte.to_N b0) =? mark)%N = false.
Proof.
  intros -> Hne. apply N.eqb_neq. intros Heq. apply Hne.
  rewrite code_unit_value in Heq by apply byte_to_N_bound.
  pose proof (byte_to_N_bound b0) as Bb0. pose proof (byte_to_N_bound m0) as Bm0.
  assert (E0 : Byte.to_N b0 = Byte.to_N m0) by lia.
  assert (E1 : Byte.to_N b1 = Byte.to_N m1) by lia.
  assert (Hinj : forall x y, Byte.to_N x = Byte.to_N y -> x = y).
  { intros x y Hxy.
    pose proof (Stdlib.Strings.Byte.of_to_N x) as Hx.
    rewrite Hxy, Stdlib.Strings.Byte.of_to_N in Hx. congruence. }
  rewrite (Hinj _ _ E0), (Hinj _ _ E1). reflexivity.
Qed.

(** A stream of two bytes or more that does not begin with a byte-order
    mark is refused. *)
Lemma no_bom_not_decoded (data : bytes) :
  2 <= List.length data ->
  firstn 2 data <> BOM_LE ->
  firstn 2 data <> BOM_BE ->
  exists e, decode_utf_16_text data = inl e.
Proof.
  intros Hlen Hle Hbe.
  destruct data as [|b0 [|b1 rest]]; try (simpl in Hlen; lia).
  unfold decode_utf_16_text, utf_16_buffer_decode, utf_16_ex_decode.
  rewrite (@bom_code_unit b0 b1 0xFEFF%N Byte.xff Byte.xfe eq_refl Hle).
  rewrite (@bom_code_unit b0 b1 0xFFFE%N Byte.xfe Byte.xff eq_refl Hbe).
  cbn [Z.leb Z.compare].
  destruct (utf_16_units LittleEndian (b0 :: b1 :: rest) (b0 :: b1 :: rest) 0) as [e|out].
  - exists e. reflexivity.
  - eexists. reflexivity.
Qed.

(** An odd number of bytes is never a sequence of code units. *)
Lemma utf_16_units_odd (n : nat) :
  forall bo object q pos,
    List.length q <= n ->
    Nat.odd (List.length q) = true ->
    exists e, utf_16_units bo object q pos = inl e.
Proof.
  induction n as [|n IH]; intros bo object q pos Hlen Hodd.
  - destruct q; [discriminate Hodd | simpl in Hlen; lia].
  - destruct q as [|b0 [|b1 q1]].
    + discriminate Hodd.
    + eexists. reflexivity.
    + assert (Hodd1 : Nat.odd (List.length q1) = true) by exact Hodd.
      cbn [utf_16_units].
      destruct (negb (is_surrogate (code_unit bo b0 b1))).
      * destruct (IH bo object q1 (pos + 2)) as [e He];
          [simpl in Hlen; lia | exact Hodd1 |].
        rewrite He. eexists. reflexivity.
      * destruct (negb (is_high_surrogate (code_unit bo b0 b1)));
          [eexists; reflexivity|].
        destruct q1 as [|b2 [|b3 q2]]; try (eexists; reflexivity).
        destruct (negb (is_low_surrogate (code_unit bo b2 b3)));
          [eexists; reflexivity|].
        destruct (IH bo object q2 (pos + 4)) as [e He];
          [simpl in Hlen; lia | exact Hodd1 |].
        rewrite He. eexists. reflexivity.
Qed.

Lemma odd_length_not_decoded (data : bytes) :
  Nat.odd (List.length data) = true ->
  exists e, decode_utf_16_text data = inl e.
Proof.
  intros Hodd.
  unfold decode_utf_16_text, utf_16_buffer_decode, utf_16_ex_decode.
  destruct (match data with
            | b0 :: b1 :: rest =>
                if (N.lor (N.shiftl (Byte.to_N b1) 8) (Byte.to_N b0) =? 0xFEFF)%N
                then ((-1)%Z, rest, 2)
                else if (N.lor (N.shiftl (Byte.to_N b1) 8) (Byte.to_N b0) =? 0xFFFE)%N
                     then (1%Z, rest, 2)
                     else (0%Z, data, 0)
            | _ => (0%Z, data, 0)
            end) as [[byteorder q] skipped] eqn:Hbom.
  assert (Hq : Nat.odd (List.length q) = true).
  { destruct data as [|b0 [|b1 rest]]; try (injection Hbom as _ <- _; exact Hodd).
    destruct (_ =? 0xFEFF)%N; [injection Hbom as _ <- _; exact Hodd|].
    destruct (_ =? 0xFFFE)%N; injection Hbom as _ <- _; exact Hodd. }
  destruct (@utf_16_units_odd (List.length q)
              (if (byteorder <=? 0)%Z then LittleEndian else BigEndian)
              data q skipped (le_n _) Hq) as [e He].
  rewrite He. exists e. reflexivity.
Qed.

(** Decoding undoes encoding, for text of the Basic Multilingual Plane
    without surrogates, in either byte order. *)
Lemma utf_16_units_le_bmp (object : bytes) (s : str) :
  forall pos,
    forallb is_bmp_scalar s = true ->
    utf_16_units LittleEndian object (utf_16_le_bmp s) pos = inr s.
Proof.
  induction s as [|c s IH]; intros pos Hs; [reflexivity|].
  cbn [forallb] in Hs. apply andb_prop in Hs as [Hc Hs].
  unfold is_bmp_scalar in Hc. apply andb_prop in Hc as [Hlt Hsur].
  apply N.ltb_lt in Hlt.
  change (utf_16_le_bmp (c :: s))
    with (octets [c mod 256; c / 256]%N ++ utf_16_le_bmp s).
  cbn [octets map app utf_16_units code_unit].
  assert (Hlo : (c mod 256 < 256)%N) by (apply N.mod_lt; discriminate).
  assert (Hhi : (c / 256 < 256)%N)
    by (apply N.Div0.div_lt_upper_bound; exact Hlt).
  rewrite !octet_to_N by assumption.
  rewrite code_unit_value by assumption.
  replace (c / 256 * 256 + c mod 256)%N with c
    by (rewrite (N.div_mod c 256) at 1; [lia | discriminate]).
  rewrite Hsur. rewrite (IH _ Hs). reflexivity.
Qed.

Lemma utf_16_units_be_bmp (object : bytes) (s : str) :
  forall pos,
    forallb is_bmp_scalar s = true ->
    utf_16_units BigEndian object (utf_16_be_bmp s) pos = inr s.
Proof.
  induction s as [|c s IH]; intros pos Hs; [reflexivity|].
  cbn [forallb] in Hs. apply andb_prop in Hs as [Hc Hs].
  unfold is_bmp_scalar in Hc. apply andb_prop in Hc as [Hlt Hsur].
  apply N.ltb_lt in Hlt.
  change (utf_16_be_bmp (c :: s))
    with (octets [c / 256; c mod 256]%N ++ utf_16_be_bmp s).
  cbn [octets map app utf_16_units code_unit].
  assert (Hlo : (c mod 256 < 256)%N) by (apply N.mod_lt; discriminate).
  assert (Hhi : (c / 256 < 256)%N)
    by (apply N.Div0.div_lt_upper_bound; exact Hlt).
  rewrite !octet_to_N by assumption.
  rewrite code_unit_value by assumption.
  replace (c / 256 * 256 + c mod 256)%N with c
    by (rewrite (N.div_mod c 256) at 1; [lia | discriminate]).
  rewrite Hsur. rewrite (IH _ Hs). reflexivity.
Qed.

Lemma decode_encoded_text (s : str) :
  forallb is_bmp_scalar s = true ->
  decode_utf_16_text (BOM_LE ++ utf_16_le_bmp s) = inr (translate_newlines s) /\
  decode_utf_16_text (BOM_BE ++ utf_16_be_bmp s) = inr (translate_newlines s).
Proof.
  intros Hs. unfold decode_utf_16_text, utf_16_buffer_decode, utf_16_ex_decode.
  split.
  - change (BOM_LE ++ utf_16_le_bmp s) with (Byte.xff :: Byte.xfe :: utf_16_le_bmp s).
    cbv iota beta.
    change (N.lor (N.shiftl (Byte.to_N Byte.xfe) 8) (Byte.to_N Byte.xff) =? 0xFEFF)%N
      with true.
    cbv iota beta. change (-1 <=? 0)%Z with true. cbv iota.
    rewrite utf_16_units_le_bmp by assumption. reflexivity.
  - change (BOM_BE ++ utf_16_be_bmp s) with (Byte.xfe :: Byte.xff :: utf_16_be_bmp s).
    cbv iota beta.
    change (N.lor (N.shiftl (Byte.to_N Byte.xff) 8) (Byte.to_N Byte.xfe) =? 0xFEFF)%N
      with false.
    change (N.lor (N.shiftl (Byte.to_N Byte.xff) 8) (Byte.to_N Byte.xfe) =? 0xFFFE)%N
      with true.
    cbv iota beta. change (1 <=? 0)%Z with false. cbv iota.
    rewrite utf_16_units_be_bmp by assumption. reflexivity.
Qed.

(** ** More on the Syntax Checker *)

Section CheckFileMore.

Variable value : Type.
Variable loads : str -> loads_result value.
Variable repr : str -> str.
Variable fs : filesystem.
Variable argv0 : str.

(** Whatever its arguments, the Syntax Checker ends with status 0 or 1,
    calls [print] exactly once, emits no log record, sets up no log file,
    and opens nothing but the file its single argument names, once and in
    text mode. *)
Theorem syntax_checker_frame (args : list str) :
  let o := run (check_file_script loads repr fs argv0 args) in
  (exit_status o = 0%Z \/ exit_status o = 1%Z) /\
  List.length (printed (trace o)) = 1 /\
  log_file o = [] /\
  configured (trace o) = [] /\
  opened (trace o) = match args with [path] => [(path, false)] | _ => [] end.
Proof.
  intros o. subst o.
  destruct args as [|path [|path' args]]; [cbn; auto 6 | | cbn; auto 6].
  unfold check_file_script, check_json_file, open_file, json_load, read_text,
    json_loads, str_exc.
  cbn. destruct (fs path) as [[[|] data|sz]|]; cbn; auto 6.
  destruct (decode_utf_16_text data) as [e|text] eqn:Hdec; cbn.
  - rewrite (decode_error_is_ValueError _ Hdec). cbn. auto 6.
  - destruct (loads text); cbn; auto 6.
Qed.

(** The Syntax Checker ends with status 0 exactly when its argument names a
    file it can open whose bytes decode as UTF-16 text that the parser
    accepts, and it prints "Valid JSON file" exactly then. *)
Theorem syntax_checker_accepts_iff (path : str) :
  let o := run (check_file_script loads repr fs argv0 [path]) in
  (exit_status o = 0%Z <->
   exists data, fs path = Some (RegularFile true data) /\ utf16_json loads data) /\
  (stdout o = [lit "Valid JSON file"] <-> exit_status o = 0%Z).
Proof.
  intros o.
  destruct (check_file_run loads repr fs argv0 path) as (Hexit & _ & Hout & _).
  fold o in Hexit, Hout. unfold failure_of in Hexit, Hout.
  split.
  - split.
    + apply syntax_checker_accepts_only_utf16.
    + intros (data & Hfs & text & v & Hdec & Hload).
      rewrite Hfs, Hdec, Hload in Hexit. exact Hexit.
  - rewrite Hexit, Hout.
    destruct (fs path) as [[[|] data|sz]|]; try (split; discriminate).
    destruct (decode_utf_16_text data) as [e|text]; [split; discriminate|].
    destruct (loads text); try (split; discriminate).
    split; reflexivity.
Qed.

End CheckFileMore.

(** ** More on the Schema Validator *)

Section VerifyJsonFileMore.

Variable value : Type.
Variable model : Type.
Variable loads : str -> loads_result value.
Variable validate : value -> validation_result model.
Variable str_model : model -> str.
Variable repr : str -> str.
Variable fs : filesystem.
Variable argv0 : str.

(** The Schema Validator ends with status 0 exactly when its argument names
    a non-empty file it can open, whose bytes decode as UTF-16 text, which
    the parser accepts, with a value the schema accepts. *)
Theorem schema_validator_succeeds_iff (path : str) :
  let o := run (verify_json_file_script loads validate str_model repr fs argv0 [path]) in
  exit_status o = 0%Z <->
  exists data text v m,
    fs path = Some (RegularFile true data) /\ data <> [] /\
    decode_utf_16_text data = inr text /\
    loads text = Loaded v /\ validate v = Valid m.
Proof.
  intros o. subst o.
  walk fs loads validate path.
  all: split;
    [ intros Hexit; try discriminate Hexit
    | intros (data' & text' & v' & m' & Hfs' & Hne & Hdec' & Hload' & Hval') ].
  all: try (injection Hfs' as <-); try discriminate Hfs'.
  all: try congruence.
  all: try match goal with
         | H : Z.of_nat (List.length _) = 0%Z |- _ =>
             apply size_zero_no_bytes in H; congruence
         end.
  - do 4 eexists. repeat split; try eassumption.
    intros ->. auto.
Qed.


(** A path that names nothing is turned down by the existence check alone:
    one line, status 1, and the size is not asked for nor the file opened. *)
Theorem missing_path_rejected (path : str) :
  fs path = None ->
  let o := run (verify_json_file_script loads validate str_model repr fs argv0 [path]) in
  let line := lit "Error: File '" ++ path ++ lit "' does not exist" in
  trace o = [EvExists value path; EvPrint value line] /\
  exit_status o = 1%Z /\ traceback o = None.
Proof.
  intros Hfs o line. subst o line.
  start_validator Hfs. repeat split.
Qed.

(** When the parser fails with an exception that is not its decode error (a
    number it cannot convert, a document nested too deep), the inner
    [except] clause does not apply: the failure is reported as a file
    reading error, without offset or context, and the run ends with status
    1. *)
Theorem other_parser_errors_reported_as_reading_errors
  (path : str) (data : bytes) (text msg : str) :
  fs path = Some (RegularFile true data) ->
  data <> [] ->
  decode_utf_16_text data = inr text ->
  loads text = Unconvertible msg \/ loads text = TooDeep msg ->
  let o := run (verify_json_file_script loads validate str_model repr fs argv0 [path]) in
  stdout o = [ lit "First bytes (hex): " ++ hex (firstn 10 data);
               lit "File content starts with: " ++ slice text 0 50 ++ lit "...";
               lit "File reading error: " ++ msg ] /\
  exit_status o = 1%Z /\ traceback o = None /\ log_file o = [] /\
  stages (trace o) = [Existence; Emptiness; Preview; Decode; Parse].
Proof.
  intros Hfs Hdata Hdec Hload o. subst o.
  start_validator Hfs. nonempty Hdata. rewrite Hdec. cbn.
  destruct Hload as [Hload|Hload]; rewrite Hload; cbn;
    repeat (progress eval_isinstance; cbn); repeat split.
Qed.

(** The line that shows how the content starts holds the first 50
    characters of the decoded text, or all of it when it is shorter, and
    ends with an ellipsis in both cases. *)
Theorem content_preview (path : str) (data : bytes) (text : str) :
  fs path = Some (RegularFile true data) ->
  data <> [] ->
  decode_utf_16_text data = inr text ->
  let o := run (verify_json_file_script loads validate str_model repr fs argv0 [path]) in
  nth 1 (stdout o) [] = lit "File content starts with: " ++ firstn 50 text ++ lit "..." /\
  (List.length text <= 50 ->
   nth 1 (stdout o) [] = lit "File content starts with: " ++ text ++ lit "...").
Proof.
  intros Hfs Hdata Hdec o.
  assert (Hline : nth 1 (stdout o) []
                  = lit "File content starts with: " ++ firstn 50 text ++ lit "...").
  { subst o. start_validator Hfs. nonempty Hdata. rewrite Hdec. cbn.
    change 50%Z with (Z.of_nat 50). change 0%Z with (Z.of_nat 0).
    rewrite slice_nat. cbn [skipn].
    destruct (loads text); cbn; repeat (progress eval_isinstance; cbn);
      try reflexivity.
    destruct (validate v); cbn; repeat (progress eval_isinstance; cbn); reflexivity. }
  split; [exact Hline|].
  intros Hlen. rewrite Hline, firstn_all2 by assumption. reflexivity.
Qed.

End VerifyJsonFileMore.

(** ** The two scripts side by side *)

Section BothScripts.

Variable value : Type.
Variable model : Type.
Variable loads : str -> loads_result value.
Variable validate : value -> validation_result model.
Variable str_model : model -> str.
Variable repr : str -> str.
Variable fs : filesystem.
Variable argv0 : str.

(** With no argument, or with more than one, the Syntax Checker calls
    [print] with the usage line that names it and ends with status 1; that is
    its whole run.  The Schema Validator first runs its module-level
    statements; when they succeed, its whole run is the two imports, the
    set-up of the log file, and the same usage line, and it ends with status
    1. *)
Theorem usage_on_wrong_argument_count (env : environment) (args : list str) :
  List.length args <> 1 ->
  starts env = true ->
  let checker := run (check_file_script loads repr fs argv0 args) in
  let validator :=
    run (verify_json_file_py loads validate str_model repr env argv0 args) in
  let line := lit "Usage: python " ++ argv0 ++ lit " <json_file>" in
  trace checker = [EvPrint value line] /\
  exit_status checker = 1%Z /\
  trace validator =
    [ EvImport value (lit "maestro_api_models.models.data.system.model");
      EvImport value
        (lit "maestro_api_models.models.request_response.add_update.model");
      EvBasicConfig value (lit "data_restore.log");
      EvPrint value line ] /\
  exit_status validator = 1%Z.
Proof.
  intros Hargs Hstart checker validator line.
  destruct (whole_module_run loads validate str_model repr argv0 env args Hstart)
    as (Htrace & Hexit & _).
  fold validator in Htrace, Hexit. rewrite Htrace, Hexit.
  subst checker line. clear Htrace Hexit validator.
  destruct args as [|path [|path' args]]; [| elim Hargs; reflexivity |];
    cbn; repeat split.
Qed.

(** A readable, non-empty file whose bytes do not decode is rejected by
    both scripts in the decoding. *)
Lemma undecodable_in_both (path : str) (data : bytes) (e : exn) :
  fs path = Some (RegularFile true data) ->
  data <> [] ->
  decode_utf_16_text data = inl e ->
  rejected_in_decoding loads validate str_model repr fs argv0 path data.
Proof.
  intros Hfs Hdata Hdec. exists e. split; [exact Hdec|].
  destruct (@syntax_checker_decode_failure _ loads repr fs argv0 _ _ _ Hfs Hdec)
    as (Hout & Hexit & Hparsed).
  split; [exact Hout|]. split; [exact Hexit|]. split; [exact Hparsed|].
  start_validator Hfs. nonempty Hdata. rewrite Hdec. cbn.
  rewrite (decode_error_is_Exception _ Hdec). cbn. repeat split.
Qed.

(** A non-empty file of UTF-8 text is rejected by both scripts in the
    decoding, whatever the text is: the parser is never called. *)
Theorem utf8_file_rejected_by_both (path : str) (data : bytes) (text : str) :
  fs path = Some (RegularFile true data) ->
  data <> [] ->
  utf_8_decode data = Some text ->
  rejected_in_decoding loads validate str_model repr fs argv0 path data.
Proof.
  intros Hfs Hdata Hutf8.
  destruct (utf8_text_is_not_a_utf16_stream Hutf8 Hdata) as [e He].
  exact (undecodable_in_both Hfs Hdata He).
Qed.

(** A file of two bytes or more that does not begin with a byte-order mark
    is rejected by both scripts in the decoding, even when its bytes are
    UTF-16 code units. *)
Theorem file_without_bom_rejected_by_both (path : str) (data : bytes) :
  fs path = Some (RegularFile true data) ->
  2 <= List.length data ->
  firstn 2 data <> BOM_LE ->
  firstn 2 data <> BOM_BE ->
  rejected_in_decoding loads validate str_model repr fs argv0 path data.
Proof.
  intros Hfs Hlen Hle Hbe.
  destruct (no_bom_not_decoded data Hlen Hle Hbe) as [e He].
  apply (undecodable_in_both (e := e) Hfs); [|exact He].
  intros ->. simpl in Hlen. lia.
Qed.

(** A file with an odd number of bytes is rejected by both scripts in the
    decoding. *)
Theorem odd_length_file_rejected_by_both (path : str) (data : bytes) :
  fs path = Some (RegularFile true data) ->
  Nat.odd (List.length data) = true ->
  rejected_in_decoding loads validate str_model repr fs argv0 path data.
Proof.
  intros Hfs Hodd.
  destruct (odd_length_not_decoded data Hodd) as [e He].
  apply (undecodable_in_both (e := e) Hfs); [|exact He].
  intros ->. discriminate Hodd.
Qed.

(** Writing a text of the Basic Multilingual Plane as a byte-order mark and
    its UTF-16 code units, in either byte order, gives a file that both
    scripts read back as that text (with universal newlines): when the parser
    accepts it, the Syntax Checker accepts the file and the Schema Validator
    gets to the schema validation. *)
Theorem encoded_document_accepted (path : str) (text : str) (v : value) :
  forallb is_bmp_scalar text = true ->
  loads (translate_newlines text) = Loaded v ->
  fs path = Some (RegularFile true (BOM_LE ++ utf_16_le_bmp text)) \/
  fs path = Some (RegularFile true (BOM_BE ++ utf_16_be_bmp text)) ->
  let checker := run (check_file_script loads repr fs argv0 [path]) in
  let validator :=
    run (verify_json_file_script loads validate str_model repr fs argv0 [path]) in
  stdout checker = [lit "Valid JSON file"] /\ exit_status checker = 0%Z /\
  parsed (trace validator) = [translate_newlines text] /\
  stages (trace validator) = all_stages.
Proof.
  intros Hbmp Hload Hfs.
  destruct (decode_encoded_text text Hbmp) as [Hle Hbe].
  assert (Hfile : exists data,
             fs path = Some (RegularFile true data) /\ data <> [] /\
             decode_utf_16_text data = inr (translate_newlines text)).
  { destruct Hfs as [Hfs|Hfs]; eexists; (split; [exact Hfs|]);
      (split; [discriminate | assumption]). }
  destruct Hfile as (data & Hdata & Hne & Hdec).
  intros checker validator.
  destruct (check_file_run loads repr fs argv0 path) as (Hexit & _ & Hout & _).
  fold checker in Hexit, Hout. unfold failure_of in Hexit, Hout.
  rewrite Hdata, Hdec, Hload in Hexit, Hout.
  split; [exact Hout|]. split; [exact Hexit|].
  subst validator. start_validator Hdata. nonempty Hne.
  rewrite Hdec. cbn. rewrite Hload. cbn.
  destruct (validate v); cbn; repeat (progress eval_isinstance; cbn); split; reflexivity.
Qed.

(** The Schema Validator gets to the schema validation on exactly the files
    the Syntax Checker accepts, the empty file apart. *)
Theorem validator_reaches_schema_iff_checker_accepts (path : str) :
  let checker := run (check_file_script loads repr fs argv0 [path]) in
  let validator :=
    run (verify_json_file_script loads validate str_model repr fs argv0 [path]) in
  In Schema (stages (trace validator)) <->
  exit_status checker = 0%Z /\ fs path <> Some (RegularFile true []).
Proof.
  intros checker validator.
  destruct (check_file_run loads repr fs argv0 path) as (Hexit & _).
  fold checker in Hexit. rewrite Hexit. clear Hexit checker.
  unfold failure_of. subst validator.
  walk fs loads validate path.
  all: repeat match goal with
         | H : decode_utf_16_text _ = _ |- _ => rewrite H
         | H : loads _ = _ |- _ => rewrite H
         end.
  all: split;
    [ intros Hin;
      first [ solve [exfalso; cbn in Hin; intuition discriminate]
            | split;
              [ reflexivity
              | intros Heq; injection Heq as ->;
                match goal with H : _ <> 0%Z |- _ => elim H; reflexivity end ] ]
    | intros [H0 Hne]; first [ discriminate H0 | cbn; tauto | idtac ] ].
  all: try match goal with
         | H : Z.of_nat (List.length _) = 0%Z |- _ =>
             apply size_zero_no_bytes in H; subst; elim Hne; reflexivity
         end.
Qed.

(** On an empty file the two scripts differ: the Syntax Checker hands the
    empty text to the parser and reports its verdict, while the Schema
    Validator turns the file down without reading it. *)
Theorem empty_file_in_both (path : str) :
  fs path = Some (RegularFile true []) ->
  let checker := run (check_file_script loads repr fs argv0 [path]) in
  let validator :=
    run (verify_json_file_script loads validate str_model repr fs argv0 [path]) in
  parsed (trace checker) = [[]] /\
  (exit_status checker = 0%Z <-> exists v, loads [] = Loaded v) /\
  (forall msg pos,
      loads [] = Malformed msg pos ->
      stdout checker =
        [lit "Invalid JSON file: " ++ str_of repr (E_JSONDecodeError msg [] pos)]) /\
  parsed (trace validator) = [] /\ exit_status validator = 1%Z.
Proof.
  intros Hfs checker validator.
  destruct (check_file_run loads repr fs argv0 path) as (Hexit & _ & Hout & Hparsed).
  fold checker in Hexit, Hout, Hparsed.
  unfold failure_of in Hexit, Hout. unfold decoded_text in Hparsed.
  rewrite Hfs in Hexit, Hout, Hparsed.
  change (decode_utf_16_text []) with (@inr exn str []) in Hexit, Hout, Hparsed.
  cbv beta iota in Hexit, Hout, Hparsed.
  split; [exact Hparsed|]. split; [|split].
  - rewrite Hexit. destruct (loads []) as [v| | |]; split;
      try discriminate; try (intros [v' Hv]; discriminate Hv).
    + intros _. exists v. reflexivity.
    + reflexivity.
  - intros msg pos Hload. rewrite Hload in Hout. exact Hout.
  - subst validator. start_validator Hfs. split; reflexivity.
Qed.

End BothScripts.

(** ** These properties at concrete inputs *)

Lemma usage_on_wrong_argument_count_witness :
  stdout (Sample.check_file []) = [lit "Usage: python check_file.py <json_file>"] /\
  exit_status (Sample.check_file []) = 1%Z /\
  exit_status (Sample.verify_json_file_in Sample.env []) = 1%Z.
Proof.
  destruct (@usage_on_wrong_argument_count _ _ Sample.loads Sample.validate
              Sample.str_model Sample.repr Sample.fs (lit "check_file.py")
              Sample.env [])
    as (Htrace & Hexit & _ & _).
  - simpl. discriminate.
  - vm_compute. reflexivity.
  - split; [|split; [exact Hexit | vm_compute; reflexivity]].
    unfold stdout, Sample.check_file. rewrite Htrace. reflexivity.
Defined.

Lemma start_up_failure_is_not_handled_witness :
  let o := Sample.verify_json_file_in Sample.without_schema_library [lit "ok.json"] in
  trace o = [EvImport _ (lit "maestro_api_models.models.data.system.model")] /\
  traceback o = Some (E_ModuleNotFoundError (lit "maestro_api_models")) /\
  exit_status o = 1%Z.
Proof.
  destruct (@start_up_failure_is_not_handled _ _ Sample.loads Sample.validate
              Sample.str_model Sample.repr (lit "verify_json_file.py")
              Sample.without_schema_library [lit "ok.json"])
    as (_ & Himport & _).
  apply (Himport (E_ModuleNotFoundError (lit "maestro_api_models"))); reflexivity.
Defined.

Lemma missing_path_rejected_witness :
  Sample.fs (lit "missing.json") = None /\
  trace (Sample.verify_json_file [lit "missing.json"]) =
    [ EvExists Json.json (lit "missing.json");
      EvPrint Json.json (lit "Error: File 'missing.json' does not exist") ].
Proof.
  split; [reflexivity|].
  destruct (@missing_path_rejected _ _ Sample.loads Sample.validate
              Sample.str_model Sample.repr Sample.fs (lit "verify_json_file.py")
              (lit "missing.json")) as (Htrace & _).
  - reflexivity.
  - exact Htrace.
Defined.

Lemma other_parser_errors_reported_as_reading_errors_witness :
  let o := Sample.verify_json_file [lit "deep.json"] in
  List.length (stdout o) = 3 /\ exit_status o = 1%Z /\ log_file o = [].
Proof.
  destruct (@other_parser_errors_reported_as_reading_errors _ _ Sample.loads
              Sample.validate Sample.str_model Sample.repr Sample.fs
              (lit "verify_json_file.py") (lit "deep.json")
              (BOM_LE ++ utf_16_le_bmp (repeat 91%N 996 ++ repeat 93%N 996))
              (repeat 91%N 996 ++ repeat 93%N 996)
              (lit "maximum recursion depth exceeded while decoding a JSON array from a unicode string"))
    as (Hout & Hexit & _ & Hlog & _).
  - vm_compute. reflexivity.
  - vm_compute. discriminate.
  - vm_compute. reflexivity.
  - right. vm_compute. reflexivity.
  - split; [|split; [exact Hexit | exact Hlog]].
    unfold Sample.verify_json_file. rewrite Hout. reflexivity.
Defined.

Lemma content_preview_witness :
  nth 1 (stdout (Sample.verify_json_file [lit "short.json"])) [] =
  lit "File content starts with: 7...".
Proof.
  destruct (@content_preview _ _ Sample.loads Sample.validate
              Sample.str_model Sample.repr Sample.fs (lit "verify_json_file.py")
              (lit "short.json") (BOM_LE ++ utf_16_le_bmp (lit "7")) (lit "7"))
    as (_ & Hshort).
  - reflexivity.
  - vm_compute. discriminate.
  - vm_compute. reflexivity.
  - apply Hshort. vm_compute. lia.
Defined.

Lemma preview_of_readable_file_witness :
  exists rest,
    stdout (Sample.verify_json_file [lit "short.json"]) =
    lit "First bytes (hex): fffe3700" :: rest.
Proof.
  destruct (@preview_of_readable_file _ _ Sample.loads Sample.validate
              Sample.str_model Sample.repr Sample.fs (lit "verify_json_file.py")
              (lit "short.json") (BOM_LE ++ utf_16_le_bmp (lit "7")))
    as (rest & Hout & _).
  - reflexivity.
  - vm_compute. discriminate.
  - exists rest. exact Hout.
Defined.

Lemma utf8_file_rejected_by_both_witness :
  rejected_in_decoding Sample.loads Sample.validate Sample.str_model Sample.repr
    Sample.fs (lit "script.py") (lit "utf8.json") (jbytes "{'a': 1}").
Proof.
  apply (@utf8_file_rejected_by_both _ _ Sample.loads Sample.validate
           Sample.str_model Sample.repr Sample.fs (lit "script.py")
           (lit "utf8.json") (jbytes "{'a': 1}") (jlit "{'a': 1}")).
  - reflexivity.
  - vm_compute. discriminate.
  - vm_compute. reflexivity.
Defined.

Lemma file_without_bom_rejected_by_both_witness :
  let data := utf_16_le_bmp (jlit "{'a': 1}") in
  let fs := Sample.fs_of [(lit "nobom.json", RegularFile true data)] in
  rejected_in_decoding Sample.loads Sample.validate Sample.str_model Sample.repr
    fs (lit "script.py") (lit "nobom.json") data.
Proof.
  intros data fs.
  apply (@file_without_bom_rejected_by_both _ _ Sample.loads Sample.validate
           Sample.str_model Sample.repr fs (lit "script.py")
           (lit "nobom.json") data).
  - reflexivity.
  - vm_compute. lia.
  - vm_compute. discriminate.
  - vm_compute. discriminate.
Defined.

Lemma odd_length_file_rejected_by_both_witness :
  rejected_in_decoding Sample.loads Sample.validate Sample.str_model Sample.repr
    Sample.fs (lit "script.py") (lit "odd.json") (jbytes "{'a':1}").
Proof.
  apply (@odd_length_file_rejected_by_both _ _ Sample.loads Sample.validate
           Sample.str_model Sample.repr Sample.fs (lit "script.py")
           (lit "odd.json") (jbytes "{'a':1}")).
  - reflexivity.
  - reflexivity.
Defined.

Lemma encoded_document_accepted_witness :
  let checker := Sample.check_file [lit "a.json"] in
  let validator := Sample.verify_json_file [lit "a.json"] in
  stdout checker = [lit "Valid JSON file"] /\ exit_status checker = 0%Z /\
  stages (trace validator) = all_stages.
Proof.
  destruct (@encoded_document_accepted _ _ Sample.loads Sample.validate
              Sample.str_model Sample.repr Sample.fs (lit "check_file.py")
              (lit "a.json") (jlit "{'a': 1}")
              (Json.JDict [(lit "a", Json.JInt 1)]))
    as (Hout & Hexit & _).
  - vm_compute. reflexivity.
  - vm_compute. reflexivity.
  - left. reflexivity.
  - split; [exact Hout|]. split; [exact Hexit|]. vm_compute. reflexivity.
Defined.

Lemma empty_file_in_both_witness :
  let checker := Sample.check_file [lit "empty.json"] in
  stdout checker =
    [lit "Invalid JSON file: Expecting value: line 1 column 1 (char 0)"] /\
  parsed (trace checker) = [[]].
Proof.
  destruct (@empty_file_in_both _ _ Sample.loads Sample.validate
              Sample.str_model Sample.repr Sample.fs (lit "check_file.py")
              (lit "empty.json"))
    as (Hparsed & _ & Hmsg & _).
  - reflexivity.
  - split; [|exact Hparsed].
    apply (Hmsg (lit "Expecting value") 0). vm_compute. reflexivity.
Defined.
